(** * WeightingFunctionsProcessor: a shallow embedding of
      [src/ogc/weighting_functions.py] and the properties of its contract.

    The processor is a thin adapter: it reads a configuration file, creates an
    output directory, checks three request parameters, runs a container through
    [docker_utils.run_docker_container] and shapes a response.  The embedding
    keeps the statement order of [execute], since several properties are about
    which effects have happened when an exception is raised.

    What lies outside the module is a parameter of the development: the
    operating system ([open], [json.load], [os.makedirs]) and the container
    invoker.  Nothing is assumed of how they behave; where a property needs a
    call to have returned, that is one of its hypotheses. *)

From Stdlib Require Import ZArith Ascii.
From stdpp Require Import base option strings list gmap.

Local Open Scope Z_scope.

(** ** Python values *)

(** JSON values as Python sees them after [json.load].  The processor only
    compares request values with [None] and hands them on, and only calls
    [rstrip] on configuration values; numbers with a fraction, arrays and
    objects are kept as their JSON text. *)
Inductive value :=
| VNone
| VBool (b : bool)
| VInt (z : Z)
| VStr (s : string)
| VOther (text : string).

Definition is_None (v : value) : bool :=
  match v with VNone => true | _ => false end.

(** [d.get(k)]: the value stored under [k], or [None]. *)
Definition dict_get (d : gmap string value) (k : string) : value :=
  default VNone (d !! k).

(** What [json.load] hands back: a dictionary for a JSON object, something
    that cannot be subscripted with a string for every other document. *)
Inductive json :=
| JObject (members : gmap string value)
| JOther.

(** ** Strings *)

Module Str.

(** [s.rstrip(c)] for a one-character argument: every trailing [c] goes. *)
Fixpoint rstrip (c : ascii) (s : string) : string :=
  match s with
  | EmptyString => EmptyString
  | String a s' =>
      match rstrip c s' with
      | EmptyString => if decide (a = c) then EmptyString else String a EmptyString
      | r => String a r
      end
  end.

(** [s.endswith(c)]. *)
Fixpoint endswith (c : ascii) (s : string) : bool :=
  match s with
  | EmptyString => false
  | String a EmptyString => bool_decide (a = c)
  | String _ s' => endswith c s'
  end.

(** [c * n]. *)
Fixpoint replicate (n : nat) (c : ascii) : string :=
  match n with
  | O => EmptyString
  | S n' => String c (replicate n' c)
  end.

(** [sub in s]. *)
Fixpoint contains (sub s : string) : bool :=
  String.prefix sub s ||
  match s with
  | EmptyString => false
  | String _ s' => contains sub s'
  end.

End Str.

Definition slash : ascii := "/"%char.

(** ** Exceptions *)

(** The built-in exceptions: the ones the operating system and [json.load]
    raise, and the ones Python raises for a subscript or a method that the
    value does not have. *)
Inductive builtin_error :=
| FileNotFoundError (path : string)
| IsADirectoryError (path : string)
| NotADirectoryError (path : string)
| FileExistsError (path : string)
| PermissionError (path : string)
| UnicodeDecodeError
| JSONDecodeError
| TypeError
| KeyError (key : string)
| AttributeError
| OtherError (name : string).

(** [ProcessorExecuteError] is built in two ways by the source: with one
    positional argument (the parameter checks) and with the keyword argument
    [user_msg] (the container failure). *)
Inductive exn :=
| ProcessorExecuteError (args : list string) (user_msg : option string)
| Builtin (e : builtin_error).
Coercion Builtin : builtin_error >-> exn.

Inductive outcome (A : Type) :=
| Returned (a : A)
| Raised (e : exn).
Arguments Returned {A} a.
Arguments Raised {A} e.

(** What a library call hands back: a value, or a built-in exception. *)
Inductive result (A : Type) :=
| Ok (a : A)
| Err (e : builtin_error).
Arguments Ok {A} a.
Arguments Err {A} e.

Definition of_result {A} (r : result A) : outcome A :=
  match r with
  | Ok a => Returned a
  | Err e => Raised e
  end.

(** ** The world outside the processor *)

(** The operating system, as far as [execute] calls it: the states [FS] of
    the file system, the text files [open] hands back, and the three calls.
    [os_makedirs] may change the file system, also when it raises. *)
Record system := System {
  FS : Type;
  text_file : Type;
  (** [open(path, 'r')] *)
  os_open : string → FS → result text_file;
  (** [json.load(f)] *)
  json_load : text_file → result json;
  (** [os.makedirs(path, exist_ok=True)] *)
  os_makedirs : string → FS → result unit * FS }.

(** What [execute] hands to [docker_utils.run_docker_container]. *)
Record invocation := Invocation {
  inv_executable : value;
  inv_image_name : string;
  inv_script_name : string;
  inv_output_dir : string;
  inv_script_args : list value }.

(** What [run_docker_container] hands back:
    [(returncode, stdout, stderr, user_err_msg)]. *)
Record exec_result := ExecResult {
  returncode : Z;
  stdout : string;
  stderr : string;
  user_err_msg : string }.

(** The calls that leave the process, in the order they are made. *)
Inductive event :=
| EvOpen (path : string)
| EvMakedirs (path : string)
| EvRunDocker (inv : invocation).

Record world (sys : system) := World {
  environ : gmap string string;
  fs : FS sys;
  trace : list event }.
Arguments World {sys} environ fs trace.
Arguments environ {sys} w.
Arguments fs {sys} w.
Arguments trace {sys} w.

(** The container invocations recorded in a trace. *)
Definition docker_calls (t : list event) : list invocation :=
  omap (λ e, match e with EvRunDocker i => Some i | _ => None end) t.

(** ** The processor object *)

(** The sidecar metadata document [weighting_functions.json]: its ["id"] and
    its ["outputs"] table (output name, then ["title"] / ["description"]). *)
Record process_metadata := ProcessMetadata {
  meta_id : string;
  meta_outputs : gmap string (gmap string string) }.

(** The attributes of [self].  The three configuration attributes do not exist
    until [execute] assigns them. *)
Record processor := Processor {
  name : string;
  metadata : process_metadata;
  supports_outputs : bool;
  process_id : string;
  my_job_id : string;
  image_name : string;
  script_name : string;
  docker_executable : option value;
  download_dir : option string;
  download_url : option string }.

Definition set_docker_executable (v : value) (p : processor) : processor :=
  Processor (name p) (metadata p) (supports_outputs p) (process_id p)
    (my_job_id p) (image_name p) (script_name p)
    (Some v) (download_dir p) (download_url p).

Definition set_download_dir (d : string) (p : processor) : processor :=
  Processor (name p) (metadata p) (supports_outputs p) (process_id p)
    (my_job_id p) (image_name p) (script_name p)
    (docker_executable p) (Some d) (download_url p).

Definition set_download_url (u : string) (p : processor) : processor :=
  Processor (name p) (metadata p) (supports_outputs p) (process_id p)
    (my_job_id p) (image_name p) (script_name p)
    (docker_executable p) (download_dir p) (Some u).

(** [WeightingFunctionsProcessor.__init__]; [def_name] is
    [processor_def['name']], stored by the base class. *)
Definition init (def_name : string) (md : process_metadata) : processor :=
  {| name := def_name;
     metadata := md;
     supports_outputs := true;
     process_id := meta_id md;
     my_job_id := "nothing-yet";
     image_name := "aquainfra-elbe-usecase-image:20251201";
     script_name := "weighting_functions.R";
     docker_executable := None;
     download_dir := None;
     download_url := None |}.

(** [WeightingFunctionsProcessor.set_job_id]. *)
Definition set_job_id (p : processor) (job_id : string) : processor :=
  Processor (name p) (metadata p) (supports_outputs p) (process_id p)
    job_id (image_name p) (script_name p)
    (docker_executable p) (download_dir p) (download_url p).

(** [WeightingFunctionsProcessor.__repr__]. *)
Definition repr (p : processor) : string :=
  "<WeightingFunctionsProcessor> " +:+ name p.

(** ** A state and exception monad for method bodies *)

Record state (sys : system) := State { self : processor; outside : world sys }.
Arguments State {sys} self outside.
Arguments self {sys} s.
Arguments outside {sys} s.

Definition M (sys : system) (A : Type) : Type :=
  state sys → outcome A * state sys.

Global Instance M_ret sys : MRet (M sys) := λ A a s, (Returned a, s).
Global Instance M_bind sys : MBind (M sys) := λ A B k m s,
  match m s with
  | (Returned a, s') => k a s'
  | (Raised e, s') => (Raised e, s')
  end.

(** Code that can raise but touches neither [self] nor the world. *)
Global Instance outcome_ret : MRet outcome := λ A a, Returned a.
Global Instance outcome_bind : MBind outcome := λ A B k o,
  match o with
  | Returned a => k a
  | Raised e => Raised e
  end.
Definition lift {sys A} (o : outcome A) : M sys A := λ s, (o, s).

Definition raise {sys A} (e : exn) : M sys A := λ s, (Raised e, s).
Definition get_self {sys} : M sys processor := λ s, (Returned (self s), s).
Definition modify_self {sys} (f : processor → processor) : M sys unit :=
  λ s, (Returned tt, State (f (self s)) (outside s)).
Definition get_world {sys} : M sys (world sys) :=
  λ s, (Returned (outside s), s).
Definition put_world {sys} (w : world sys) : M sys unit :=
  λ s, (Returned tt, State (self s) w).
Definition log {sys} (e : event) : M sys unit :=
  w ← get_world; put_world (World (environ w) (fs w) (trace w ++ [e])).

(** ** Library calls made by [execute] *)

(** [os.environ.get(k, dflt)]. *)
Definition environ_get {sys} (k dflt : string) : M sys string :=
  w ← get_world; mret (default dflt (environ w !! k)).

(** [open(path, 'r')]. *)
Definition open {sys} (path : string) : M sys (text_file sys) :=
  log (EvOpen path);;
  w ← get_world;
  lift (of_result (os_open sys path (fs w))).

(** [d[k]] on a dictionary. *)
Definition subscript {V} (d : gmap string V) (k : string) : outcome V :=
  match d !! k with
  | Some v => Returned v
  | None => Raised (KeyError k)
  end.

(** [configJSON[k]] on whatever [json.load] handed back. *)
Definition getitem (doc : json) (k : string) : outcome value :=
  match doc with
  | JObject members => subscript members k
  | JOther => Raised TypeError
  end.

(** [v.rstrip('/')]: only [str] has the method. *)
Definition rstrip_slash {sys} (v : value) : M sys string :=
  match v with
  | VStr s => mret (Str.rstrip slash s)
  | _ => raise AttributeError
  end.

(** [os.makedirs(path, exist_ok=True)]. *)
Definition makedirs {sys} (path : string) : M sys unit :=
  log (EvMakedirs path);;
  w ← get_world;
  let '(r, fs') := os_makedirs sys path (fs w) in
  put_world (World (environ w) fs' (trace w));;
  lift (of_result r).

(** ** [WeightingFunctionsProcessor.execute] *)

(** The success response: ["outputs"], then the output name, then
    ["title"] / ["description"] / ["href"]. *)
Abbreviation response := (gmap string (gmap string (gmap string string))).

(** [docker_utils.run_docker_container] is a collaborator outside this module:
    it sees the invocation and the file system, may write to the file system
    and hands back an [exec_result]; everything proved below holds for every
    such function. *)
Abbreviation invoker sys :=
  (invocation → FS sys → exec_result * FS sys).

(** The double quote character, for the messages that quote a parameter. *)
Definition dquote : string := String (ascii_of_nat 34) EmptyString.

(** The text of the three parameter checks, which differ in the name only:
    [Missing parameter "k". Please provide a k.] *)
Definition missing_parameter (k : string) : string :=
  "Missing parameter " +:+ dquote +:+ k +:+ dquote
    +:+ ". Please provide a " +:+ k +:+ ".".

(** The two locations of a job, one under the download directory and one under
    the download URL: [f'{root}/out/{process_id}/job_{my_job_id}']. *)
Definition output_dir (download_dir process_id my_job_id : string) : string :=
  download_dir +:+ "/out/" +:+ process_id +:+ "/job_" +:+ my_job_id.
Definition output_url (download_url process_id my_job_id : string) : string :=
  download_url +:+ "/out/" +:+ process_id +:+ "/job_" +:+ my_job_id.

(** ['weight_table-%s.csv' % my_job_id] and its [.rds] sibling. *)
Definition downloadfilename1 (my_job_id : string) : string :=
  "weight_table-" +:+ my_job_id +:+ ".csv".
Definition downloadfilename2 (my_job_id : string) : string :=
  "weight_table-" +:+ my_job_id +:+ ".rds".

(** [f'{location}/{filename}']. *)
Definition join (location filename : string) : string :=
  location +:+ "/" +:+ filename.

(** The dictionary literal bound to [response_object]; its entries are
    evaluated in the order written, and each metadata subscript can raise. *)
Definition response_object (md : process_metadata) (downloadlink1 downloadlink2 : string)
  : outcome response :=
  title1 ← subscript (meta_outputs md) "weight_table_csv" ≫= (λ o, subscript o "title");
  description1 ← subscript (meta_outputs md) "weight_table_csv" ≫= (λ o, subscript o "description");
  title2 ← subscript (meta_outputs md) "weight_table_rds" ≫= (λ o, subscript o "title");
  description2 ← subscript (meta_outputs md) "weight_table_rds" ≫= (λ o, subscript o "description");
  mret ({[ "outputs" :=
             {[ "weight_table_csv" :=
                  {[ "title" := title1;
                     "description" := description1;
                     "href" := downloadlink1 ]};
                "weight_table_rds" :=
                  {[ "title" := title2;
                     "description" := description2;
                     "href" := downloadlink2 ]} ]} ]} : response).

Section Execute.

Context {sys : system}.
Variable run_docker_container : invoker sys.

(** The call [docker_utils.run_docker_container(...)]. *)
Definition call_run_docker_container (inv : invocation) : M sys exec_result :=
  log (EvRunDocker inv);;
  w ← get_world;
  let '(r, fs') := run_docker_container inv (fs w) in
  put_world (World (environ w) fs' (trace w));;
  mret r.

Definition execute {O : Type} (data : gmap string value) (outputs : option O)
  : M sys (string * response) :=
  config_file_path ← environ_get "AQUAINFRA_CONFIG_FILE" "./config.json";
  configFile ← open config_file_path;
  configJSON ← lift (of_result (json_load sys configFile));
  exe ← lift (getitem configJSON "docker_executable");
  modify_self (set_docker_executable exe);;
  dir ← lift (getitem configJSON "download_dir") ≫= rstrip_slash;
  modify_self (set_download_dir dir);;
  url ← lift (getitem configJSON "download_url") ≫= rstrip_slash;
  modify_self (set_download_url url);;
  (* Where to store output data *)
  me ← get_self;
  let output_dir := output_dir dir (process_id me) (my_job_id me) in
  let output_url := output_url url (process_id me) (my_job_id me) in
  makedirs output_dir;;
  (* User inputs *)
  let in_inputFile_tif := dict_get data "inputFile1_tif" in
  let in_inputFile_gpkg := dict_get data "inputFile2_gpkg" in
  let in_inputFile_dbf := dict_get data "inputFile3_dbf" in
  (* Check user inputs *)
  if is_None in_inputFile_tif then
    raise (ProcessorExecuteError [missing_parameter "inputFile1_tif"] None)
  else if is_None in_inputFile_gpkg then
    raise (ProcessorExecuteError [missing_parameter "inputFile2_gpkg"] None)
  else if is_None in_inputFile_dbf then
    raise (ProcessorExecuteError [missing_parameter "inputFile3_dbf"] None)
  else
  (* Where to store output data *)
  let downloadfilename1 := downloadfilename1 (my_job_id me) in
  let downloadfilename2 := downloadfilename2 (my_job_id me) in
  let downloadfilepath1 := join output_dir downloadfilename1 in
  let downloadfilepath2 := join output_dir downloadfilename2 in
  let downloadlink1 := join output_url downloadfilename1 in
  let downloadlink2 := join output_url downloadfilename2 in
  (* Assemble args for script *)
  let script_args :=
    [ in_inputFile_tif;
      in_inputFile_gpkg;
      in_inputFile_dbf;
      VStr downloadfilepath1;
      VStr downloadfilepath2 ] in
  (* Run docker container *)
  res ← call_run_docker_container
          (Invocation exe (image_name me) (script_name me) output_dir script_args);
  if negb (returncode res =? 0) then
    let user_err_msg' :=
      if (String.length (user_err_msg res) =? 0)%nat then "no message"
      else user_err_msg res in
    let err_msg := "Running docker container failed: " +:+ user_err_msg' in
    raise (ProcessorExecuteError [] (Some err_msg))
  else
    (* Return link to file *)
    response_object ← lift (response_object (metadata me) downloadlink1 downloadlink2);
    mret ("application/json", response_object).

End Execute.

(** Running a method body on a processor in a world. *)
Definition run {sys A} (m : M sys A) (p : processor) (w : world sys)
  : outcome A * processor * world sys :=
  let '(r, s) := m (State p w) in (r, self s, outside s).

(** ** Vocabulary of the contract *)

(** The required keys of a job request, in the order [execute] checks them. *)
Definition required_keys : list string :=
  ["inputFile1_tif"; "inputFile2_gpkg"; "inputFile3_dbf"].

(** A key is missing when [data.get] yields [None]: absent, or present and null. *)
Definition missing (data : gmap string value) (k : string) : bool :=
  is_None (dict_get data k).

Definition first_missing (data : gmap string value) : option string :=
  List.find (missing data) required_keys.

Definition well_formed (data : gmap string value) : Prop :=
  ∀ k, k ∈ required_keys → missing data k = false.

(** The path [execute] reads its configuration from. *)
Definition config_file_path {sys} (w : world sys) : string :=
  default "./config.json" (environ w !! "AQUAINFRA_CONFIG_FILE").

(** Opening the configuration file and loading it both return, and what is
    loaded is the dictionary [cfg]. *)
Definition reads {sys} (w : world sys) (cfg : gmap string value) : Prop :=
  ∃ f : text_file sys,
    os_open sys (config_file_path w) (fs w) = Ok f ∧
    json_load sys f = Ok (JObject cfg).

(** The configuration of the world is read as a dictionary with the three
    fields of the schema: any value for the executable, strings for the other
    two. *)
Definition configured {sys} (w : world sys) (exe : value) (dir url : string) : Prop :=
  ∃ cfg : gmap string value,
    reads w cfg ∧
    cfg !! "docker_executable" = Some exe ∧
    cfg !! "download_dir" = Some (VStr dir) ∧
    cfg !! "download_url" = Some (VStr url).

(** The sidecar metadata describes both outputs. *)
Definition describes (md : process_metadata) (out title description : string) : Prop :=
  ∃ entry : gmap string string,
    meta_outputs md !! out = Some entry ∧
    entry !! "title" = Some title ∧
    entry !! "description" = Some description.

(** The two ways the source builds its [ProcessorExecuteError]. *)
Definition validation_error (k : string) : exn :=
  ProcessorExecuteError [missing_parameter k] None.
Definition execution_error (msg : string) : exn :=
  ProcessorExecuteError [] (Some ("Running docker container failed: " +:+ msg)).

(** The processor once [execute] has stored the configuration in it. *)
Definition with_config (exe : value) (dir url : string) (p : processor) : processor :=
  set_download_url url (set_download_dir dir (set_docker_executable exe p)).

(** The invocation [execute] assembles for a request. *)
Definition invocation_for (exe : value) (dir : string) (p : processor)
    (data : gmap string value) : invocation :=
  let od := output_dir dir (process_id p) (my_job_id p) in
  Invocation exe (image_name p) (script_name p) od
    [ dict_get data "inputFile1_tif";
      dict_get data "inputFile2_gpkg";
      dict_get data "inputFile3_dbf";
      VStr (join od (downloadfilename1 (my_job_id p)));
      VStr (join od (downloadfilename2 (my_job_id p))) ].

(** The two download links of a job. *)
Definition downloadlink1 (url pid jid : string) : string :=
  join (output_url url pid jid) (downloadfilename1 jid).
Definition downloadlink2 (url pid jid : string) : string :=
  join (output_url url pid jid) (downloadfilename2 jid).

Definition is_ProcessorExecuteError (e : exn) : bool :=
  match e with ProcessorExecuteError _ _ => true | _ => false end.

(** The result the invoker reports when [execute] reaches it: it is called
    with the assembled invocation, on the file system [os.makedirs] left. *)
Definition reported {sys} (run_docker_container : invoker sys) (fs1 : FS sys)
    (exe : value) (dir : string) (p : processor) (data : gmap string value)
  : exec_result :=
  (run_docker_container (invocation_for exe dir p data) fs1).1.

(** A stored location, when there is one, does not end in a slash. *)
Definition stripped (o : option string) : Prop :=
  ∀ s, o = Some s → Str.endswith slash s = false.

(** The entry of one output in the success response. *)
Definition output_entry (title description href : string) : gmap string string :=
  {[ "title" := title; "description" := description; "href" := href ]}.

(** ** A file system in memory, for the examples

    A finite map from paths to directories and files, with [open],
    [json.load] and [os.makedirs] as POSIX and Python have them on absolute,
    normalised paths without links and without permissions.  The theorems do
    not depend on it; it provides the concrete worlds on which they are
    instantiated. *)
Module Mem.

(** A file holds bytes that are not text, or text, which is a JSON document
    or not. *)
Inductive content :=
| Undecodable
| Text (doc : option json).

Inductive node :=
| Dir
| File (c : content).

(** The proper ancestors of a path, from the top: what stands before each of
    its slashes, the empty prefix of an absolute path apart. *)
Fixpoint ancestors_from (seen rest : string) : list string :=
  match rest with
  | EmptyString => []
  | String c rest' =>
      (if bool_decide (c = slash) && negb (bool_decide (seen = EmptyString))
       then [seen] else [])
      ++ ancestors_from (seen +:+ String c EmptyString) rest'
  end.

Definition ancestors (path : string) : list string :=
  ancestors_from EmptyString path.

Definition is_file (fs : gmap string node) (path : string) : bool :=
  match fs !! path with
  | Some (File _) => true
  | _ => false
  end.

(** [open(path, 'r')]: a regular file on the way gives [ENOTDIR]. *)
Definition open (path : string) (fs : gmap string node) : result content :=
  match List.find (is_file fs) (ancestors path) with
  | Some _ => Err (NotADirectoryError path)
  | None =>
      match fs !! path with
      | None => Err (FileNotFoundError path)
      | Some Dir => Err (IsADirectoryError path)
      | Some (File c) => Ok c
      end
  end.

(** [json.load(f)]. *)
Definition load (c : content) : result json :=
  match c with
  | Undecodable => Err UnicodeDecodeError
  | Text None => Err JSONDecodeError
  | Text (Some doc) => Ok doc
  end.

(** [mkdir] down a chain of paths, each the parent of the next: existing
    directories are passed, missing ones made; a regular file stops the walk,
    with [EEXIST] when it is the last of the chain and with [ENOTDIR], for
    the path below it, otherwise. *)
Fixpoint make_chain (chain : list string) (fs : gmap string node)
  : result unit * gmap string node :=
  match chain with
  | [] => (Ok tt, fs)
  | q :: rest =>
      match fs !! q with
      | Some Dir => make_chain rest fs
      | Some (File _) =>
          match rest with
          | [] => (Err (FileExistsError q), fs)
          | q' :: _ => (Err (NotADirectoryError q'), fs)
          end
      | None => make_chain rest (<[q := Dir]> fs)
      end
  end.

(** [os.makedirs(path, exist_ok=True)]. *)
Definition makedirs (path : string) (fs : gmap string node)
  : result unit * gmap string node :=
  make_chain (ancestors path ++ [path]) fs.

Definition sys : system :=
  {| FS := gmap string node;
     text_file := content;
     os_open := open;
     json_load := load;
     os_makedirs := makedirs |}.

End Mem.

(** ** The concrete scenario of the contract

    Request [{tif: a.tif, gpkg: b.gpkg, dbf: c.dbf}], job id [42], download
    directory [/data], download URL [https://x/files]. *)
Module Scenario.

Definition config : gmap string value :=
  {[ "docker_executable" := VStr "/usr/bin/docker";
     "download_dir" := VStr "/data";
     "download_url" := VStr "https://x/files" ]}.

(** The same configuration written with trailing slashes. *)
Definition config_slashes : gmap string value :=
  {[ "docker_executable" := VStr "/usr/bin/docker";
     "download_dir" := VStr "/data//";
     "download_url" := VStr "https://x/files/" ]}.

Definition config_file (cfg : gmap string value) : Mem.node :=
  Mem.File (Mem.Text (Some (JObject cfg))).

Definition world_of (cfg : gmap string value) : world Mem.sys :=
  World (sys := Mem.sys) ∅ {[ "./config.json" := config_file cfg ]} [].

Definition md : process_metadata :=
  ProcessMetadata "weighting-functions"
    {[ "weight_table_csv" :=
         {[ "title" := "Weight table (csv)"; "description" := "The weights as csv" ]};
       "weight_table_rds" :=
         {[ "title" := "Weight table (rds)"; "description" := "The weights as rds" ]} ]}.

Definition request : gmap string value :=
  {[ "inputFile1_tif" := VStr "a.tif";
     "inputFile2_gpkg" := VStr "b.gpkg";
     "inputFile3_dbf" := VStr "c.dbf" ]}.

Definition fresh : processor := init "weighting-functions" md.
Definition job42 : processor := set_job_id fresh "42".

(** The file system after the script has written to the two paths it was
    given as fourth and fifth argument. *)
Definition written (inv : invocation) (fs0 : gmap string Mem.node)
  : gmap string Mem.node :=
  foldr (λ v acc, match v with
                  | VStr path => <[path := Mem.File Mem.Undecodable]> acc
                  | _ => acc
                  end)
        fs0 (drop 3 (inv_script_args inv)).

(** Two invokers: one that writes the two tables and succeeds, one that
    fails with a diagnostic and writes nothing. *)
Definition succeeds : invoker Mem.sys :=
  λ inv fs0, (ExecResult 0 "done" EmptyString EmptyString, written inv fs0).
Definition fails_with (msg : string) : invoker Mem.sys :=
  λ _ fs0, (ExecResult 1 EmptyString "Rscript: error" msg, fs0).

End Scenario.

(** The directories [os.makedirs] was asked for in a trace. *)
Definition made_dirs (t : list event) : list string :=
  omap (λ e, match e with EvMakedirs d => Some d | _ => None end) t.

(** The link stored for an output in a response. *)
Definition href_of (resp : response) (out : string) : option string :=
  match resp !! "outputs" with
  | Some outs =>
      match outs !! out with
      | Some entry => entry !! "href"
      | None => None
      end
  | None => None
  end.

(** What an execution produced, as far as it got: the directory it asked
    for, the directory and the two file paths it handed to the invoker, and
    the two links of its response. *)
Definition produces {sys} (res : outcome (string * response) * processor * world sys)
    (w : world sys) (od csv_path rds_path csv_link rds_link : string) : Prop :=
  made_dirs (trace res.2) = made_dirs (trace w) ++ [od] ∧
  (∀ inv, docker_calls (trace res.2) = docker_calls (trace w) ++ [inv] →
     inv_output_dir inv = od ∧
     drop 3 (inv_script_args inv) = [VStr csv_path; VStr rds_path]) ∧
  (∀ mt resp, res.1.1 = Returned (mt, resp) →
     href_of resp "weight_table_csv" = Some csv_link ∧
     href_of resp "weight_table_rds" = Some rds_link).

(** ** The rest of the module *)

(** [s.replace(old, new)]: every occurrence of [old], found from the left
    and without overlap, becomes [new].  [skip] counts the characters of an
    occurrence that are still to be passed.  For an empty [old], Python puts
    [new] before every character and at the end. *)
Module Replace.

Fixpoint go (old new : string) (skip : nat) (s : string) : string :=
  match s with
  | EmptyString => EmptyString
  | String a s' =>
      match skip with
      | S n => go old new n s'
      | O =>
          if String.prefix old s
          then new +:+ go old new (String.length old - 1) s'
          else String a (go old new O s')
      end
  end.

Fixpoint interleave (new s : string) : string :=
  match s with
  | EmptyString => new
  | String a s' => new +:+ String a (interleave new s')
  end.

Definition replace (old new s : string) : string :=
  match old with
  | EmptyString => interleave new s
  | _ => go old new O s
  end.

End Replace.

(** The module-level [metadata_title_and_path]: the path of the sidecar
    metadata document, computed from [__file__]. *)
Definition metadata_title_and_path (script_title_and_path : string) : string :=
  Replace.replace ".py" ".json" script_title_and_path.

(** The processors a caller can hold: a new one, one whose job identity has
    been assigned, and one that [execute] has run on, with any request, any
    invoker, on any system and in any world. *)
Inductive reachable : processor → Prop :=
| reachable_init def_name md :
    reachable (init def_name md)
| reachable_set_job_id p job_id :
    reachable p → reachable (set_job_id p job_id)
| reachable_execute (sys : system) (run_docker_container : invoker sys) (O : Type)
    (data : gmap string value) (outputs : option O) p (w : world sys) :
    reachable p →
    reachable (run (execute run_docker_container data outputs) p w).1.2.

(** What holds of every processor a caller can hold. *)
Definition class_invariant (p : processor) : Prop :=
  supports_outputs p = true ∧
  process_id p = meta_id (metadata p) ∧
  image_name p = "aquainfra-elbe-usecase-image:20251201" ∧
  script_name p = "weighting_functions.R" ∧
  stripped (download_dir p) ∧
  stripped (download_url p) ∧
  (is_Some (download_url p) → is_Some (download_dir p)) ∧
  (is_Some (download_dir p) → is_Some (docker_executable p)).

(** The attributes of [self] that [execute] never assigns. *)
Definition same_identity (p p' : processor) : Prop :=
  name p' = name p ∧
  metadata p' = metadata p ∧
  supports_outputs p' = supports_outputs p ∧
  process_id p' = process_id p ∧
  my_job_id p' = my_job_id p ∧
  image_name p' = image_name p ∧
  script_name p' = script_name p.

(** Further worlds, requests and invokers for the examples. *)
Module Cases.

(** No configuration file where the environment says it is; there is one at
    the default path. *)
Definition unconfigured : world Mem.sys :=
  World (sys := Mem.sys)
        {[ "AQUAINFRA_CONFIG_FILE" := "/etc/aquainfra.json" ]}
        {[ "./config.json" := Scenario.config_file Scenario.config ]} [].

(** A configuration without [download_url]. *)
Definition config_no_url : gmap string value :=
  {[ "docker_executable" := VStr "/usr/bin/docker";
     "download_dir" := VStr "/data/" ]}.

(** A regular file sits where the output directory of job 42 belongs. *)
Definition occupied : world Mem.sys :=
  World (sys := Mem.sys) ∅
        {[ "./config.json" := Scenario.config_file Scenario.config;
           "/data" := Mem.Dir;
           "/data/out" := Mem.Dir;
           "/data/out/weighting-functions" := Mem.Dir;
           "/data/out/weighting-functions/job_42" := Mem.File (Mem.Text None) ]} [].


(** A configuration whose download directory is the root. *)
Definition config_root : gmap string value :=
  {[ "docker_executable" := VStr "/usr/bin/docker";
     "download_dir" := VStr "/";
     "download_url" := VStr "https://x/files" ]}.

(** The same request with one more key. *)
Definition request_extra : gmap string value :=
  <[ "comment" := VStr "please hurry" ]> Scenario.request.

(** An invoker as talkative as can be on the two streams. *)
Definition chatty (msg : string) : invoker Mem.sys :=
  λ _ fs0, (ExecResult 1 "stdout text" "stderr text" msg, fs0).

(** A processor that carries a configuration from an earlier execution. *)
Definition stale : processor :=
  set_download_url "http://old" (set_download_dir "/old"
    (set_docker_executable (VStr "podman") Scenario.job42)).

End Cases.

(** * Properties *)

(** ** Strings *)

Module StrFacts.
Import Str.

Lemma rstrip_no_trailing c s : endswith c (rstrip c s) = false.
Proof.
  induction s as [|a s IH]; simpl; [done|].
  destruct (rstrip c s) as [|b r] eqn:E.
  - destruct (decide (a = c)) as [->|Hne]; simpl; [done|].
    by apply bool_decide_eq_false.
  - exact IH.
Qed.

Lemma rstrip_fixed c s : endswith c s = false → rstrip c s = s.
Proof.
  induction s as [|a s IH]; simpl; [done|].
  destruct s as [|b s'].
  - intros H%bool_decide_eq_false. simpl. by destruct (decide (a = c)).
  - intros H. rewrite (IH H). done.
Qed.

Lemma rstrip_replicate c n : rstrip c (replicate n c) = EmptyString.
Proof.
  induction n as [|n IH]; simpl; [done|].
  rewrite IH. by destruct (decide (c = c)).
Qed.

Lemma rstrip_app_replicate c s n :
  rstrip c (s +:+ replicate n c) = rstrip c s.
Proof.
  induction s as [|a s IH]; simpl.
  - apply rstrip_replicate.
  - by rewrite IH.
Qed.

Lemma prefix_app sub post : String.prefix sub (sub +:+ post) = true.
Proof.
  induction sub as [|a sub IH]; simpl.
  - by destruct post.
  - destruct (Ascii.ascii_dec a a); [exact IH|done].
Qed.

Lemma contains_prefix sub s : String.prefix sub s = true → contains sub s = true.
Proof. intros H. destruct s; simpl in *; rewrite H; done. Qed.

Lemma contains_app sub pre post : contains sub (pre +:+ sub +:+ post) = true.
Proof.
  induction pre as [|a pre IH].
  - apply contains_prefix. exact (prefix_app sub post).
  - simpl. rewrite IH. apply orb_true_r.
Qed.

Lemma append_nil_r (s : string) : s +:+ EmptyString = s.
Proof.
  induction s as [|x s IH]; [done|].
  change (String x (s +:+ EmptyString) = String x s). by rewrite IH.
Qed.

Lemma contains_suffix sub pre : contains sub (pre +:+ sub) = true.
Proof. rewrite <- (append_nil_r sub) at 2. apply contains_app. Qed.

Lemma append_assoc (a b c : string) : (a +:+ b) +:+ c = a +:+ b +:+ c.
Proof.
  induction a as [|x a IH]; [done|].
  change (String x ((a +:+ b) +:+ c) = String x (a +:+ b +:+ c)).
  by rewrite IH.
Qed.

End StrFacts.

(** The paths and links, spelled out as in the contract:
    [{root}/out/{process_id}/job_{job_id}/weight_table-{job_id}.csv]. *)
Lemma csv_path_spelled root pid jid :
  join (output_dir root pid jid) (downloadfilename1 jid) =
  root +:+ "/out/" +:+ pid +:+ "/job_" +:+ jid +:+ "/weight_table-" +:+ jid +:+ ".csv".
Proof.
  unfold join, output_dir, downloadfilename1.
  by rewrite !StrFacts.append_assoc.
Qed.

Lemma rds_path_spelled root pid jid :
  join (output_dir root pid jid) (downloadfilename2 jid) =
  root +:+ "/out/" +:+ pid +:+ "/job_" +:+ jid +:+ "/weight_table-" +:+ jid +:+ ".rds".
Proof.
  unfold join, output_dir, downloadfilename2.
  by rewrite !StrFacts.append_assoc.
Qed.

Lemma downloadlink1_spelled url pid jid :
  downloadlink1 url pid jid =
  url +:+ "/out/" +:+ pid +:+ "/job_" +:+ jid +:+ "/weight_table-" +:+ jid +:+ ".csv".
Proof. exact (csv_path_spelled url pid jid). Qed.

Lemma downloadlink2_spelled url pid jid :
  downloadlink2 url pid jid =
  url +:+ "/out/" +:+ pid +:+ "/job_" +:+ jid +:+ "/weight_table-" +:+ jid +:+ ".rds".
Proof. exact (rds_path_spelled url pid jid). Qed.

Lemma made_dirs_app t1 t2 : made_dirs (t1 ++ t2) = made_dirs t1 ++ made_dirs t2.
Proof. unfold made_dirs. apply omap_app. Qed.

(** ** The shape of an execution *)

Ltac unfold_execute :=
  unfold run, execute, call_run_docker_container, environ_get, open,
    makedirs, log, rstrip_slash, modify_self, get_self, get_world, put_world,
    raise, lift, mbind, mret, M_bind, M_ret; simpl.

Lemma docker_calls_app t1 t2 :
  docker_calls (t1 ++ t2) = docker_calls t1 ++ docker_calls t2.
Proof. unfold docker_calls. apply omap_app. Qed.

Lemma first_missing_cases data :
  first_missing data =
  if missing data "inputFile1_tif" then Some "inputFile1_tif"
  else if missing data "inputFile2_gpkg" then Some "inputFile2_gpkg"
  else if missing data "inputFile3_dbf" then Some "inputFile3_dbf"
  else None.
Proof. reflexivity. Qed.

Lemma missing_iff (data : gmap string value) k :
  missing data k = true ↔ data !! k = None ∨ data !! k = Some VNone.
Proof.
  unfold missing, dict_get.
  destruct (data !! k) as [[]|]; simpl; split; intros H; try done; auto;
    by destruct H.
Qed.

Lemma present_iff (data : gmap string value) k :
  missing data k = false ↔ ∃ v, data !! k = Some v ∧ v ≠ VNone.
Proof.
  unfold missing, dict_get.
  destruct (data !! k) as [v|]; simpl; split.
  - intros H. exists v. split; [done|]. by intros ->.
  - intros (v' & [= <-] & Hv). by destruct v.
  - done.
  - by intros (v & ? & _).
Qed.

Lemma well_formed_first_missing data :
  well_formed data ↔ first_missing data = None.
Proof.
  rewrite first_missing_cases. unfold well_formed, required_keys. split.
  - intros H.
    rewrite !H; [done|set_solver..].
  - intros H k Hk.
    destruct (missing data "inputFile1_tif") eqn:E1; [done|].
    destruct (missing data "inputFile2_gpkg") eqn:E2; [done|].
    destruct (missing data "inputFile3_dbf") eqn:E3; [done|].
    repeat (apply elem_of_cons in Hk as [->|Hk]; [done|]).
    by apply elem_of_nil in Hk.
Qed.

(** The message of a parameter check names its own key and no other one. *)
Lemma missing_parameter_names k k' :
  k ∈ required_keys → k' ∈ required_keys →
  Str.contains k' (missing_parameter k) = true ↔ k' = k.
Proof.
  unfold required_keys. intros Hk Hk'.
  repeat (apply elem_of_cons in Hk as [->|Hk]);
    try (by apply elem_of_nil in Hk);
    repeat (apply elem_of_cons in Hk' as [->|Hk']);
    try (by apply elem_of_nil in Hk');
    vm_compute; split; congruence.
Qed.

(** The first missing key is missing, and no key checked before it is. *)
Lemma first_missing_first data k :
  first_missing data = Some k →
  ∃ before after,
    required_keys = before ++ k :: after ∧
    missing data k = true ∧
    ∀ k', k' ∈ before → missing data k' = false.
Proof.
  rewrite first_missing_cases. unfold required_keys.
  destruct (missing data "inputFile1_tif") eqn:E1.
  { intros [= <-]. exists [], ["inputFile2_gpkg"; "inputFile3_dbf"].
    split_and!; [done..|]. by intros k' ?%elem_of_nil. }
  destruct (missing data "inputFile2_gpkg") eqn:E2.
  { intros [= <-]. exists ["inputFile1_tif"], ["inputFile3_dbf"].
    split_and!; [done..|]. by intros k' ->%list_elem_of_singleton. }
  destruct (missing data "inputFile3_dbf") eqn:E3; [|done].
  intros [= <-]. exists ["inputFile1_tif"; "inputFile2_gpkg"], [].
  split_and!; [done..|].
  intros k' Hk'. repeat (apply elem_of_cons in Hk' as [->|Hk']; [done|]).
  by apply elem_of_nil in Hk'.
Qed.

(** When exactly one key is missing, it is the first missing one. *)
Lemma first_missing_only data k :
  k ∈ required_keys → missing data k = true →
  (∀ k', k' ∈ required_keys → k' ≠ k → missing data k' = false) →
  first_missing data = Some k.
Proof.
  intros Hk Hm Hothers. rewrite first_missing_cases.
  unfold required_keys in *.
  repeat (apply elem_of_cons in Hk as [->|Hk]);
    try (by apply elem_of_nil in Hk);
    rewrite ?Hm; try done;
    repeat (rewrite Hothers; [|set_solver by fail|done]); by rewrite ?Hm.
Qed.

Lemma response_object_described md l1 l2 t1 d1 t2 d2 :
  describes md "weight_table_csv" t1 d1 →
  describes md "weight_table_rds" t2 d2 →
  response_object md l1 l2 =
    Returned {[ "outputs" :=
                  {[ "weight_table_csv" := output_entry t1 d1 l1;
                     "weight_table_rds" := output_entry t2 d2 l2 ]} ]}.
Proof.
  intros (e1 & H1 & Ht1 & Hd1) (e2 & H2 & Ht2 & Hd2).
  unfold response_object, subscript, mbind, mret, outcome_bind, outcome_ret.
  by rewrite H1, Ht1, Hd1, H2, Ht2, Hd2.
Qed.

Lemma response_object_inv md l1 l2 :
  match response_object md l1 l2 with
  | Returned r =>
      ∃ t1 d1 t2 d2,
        describes md "weight_table_csv" t1 d1 ∧
        describes md "weight_table_rds" t2 d2 ∧
        r = {[ "outputs" :=
                 {[ "weight_table_csv" := output_entry t1 d1 l1;
                    "weight_table_rds" := output_entry t2 d2 l2 ]} ]}
  | Raised e => is_ProcessorExecuteError e = false
  end.
Proof.
  unfold response_object, describes, subscript, mbind, mret, outcome_bind, outcome_ret.
  destruct (meta_outputs md !! "weight_table_csv") as [e1|]; [|done].
  destruct (e1 !! "title") as [t1|] eqn:?; [|done].
  destruct (e1 !! "description") as [d1|] eqn:?; [|done].
  destruct (meta_outputs md !! "weight_table_rds") as [e2|]; [|done].
  destruct (e2 !! "title") as [t2|] eqn:?; [|done].
  destruct (e2 !! "description") as [d2|] eqn:?; [|done].
  exists t1, d1, t2, d2. eauto 10.
Qed.


(** The request carries the three inputs, none of them null. *)
Lemma carries_well_formed (data : gmap string value) tif gpkg dbf :
  data !! "inputFile1_tif" = Some tif → tif ≠ VNone →
  data !! "inputFile2_gpkg" = Some gpkg → gpkg ≠ VNone →
  data !! "inputFile3_dbf" = Some dbf → dbf ≠ VNone →
  well_formed data ∧
  dict_get data "inputFile1_tif" = tif ∧
  dict_get data "inputFile2_gpkg" = gpkg ∧
  dict_get data "inputFile3_dbf" = dbf.
Proof.
  intros H1 N1 H2 N2 H3 N3. unfold dict_get. rewrite H1, H2, H3.
  split; [|done].
  intros k Hk. apply present_iff. unfold required_keys in Hk.
  repeat (apply elem_of_cons in Hk as [->|Hk]; [by eauto|]).
  by apply elem_of_nil in Hk.
Qed.

(** One world is read as one configuration. *)
Lemma configured_unique {sys} (w : world sys) exe d u exe' d' u' :
  configured w exe d u → configured w exe' d' u' →
  exe' = exe ∧ d' = d ∧ u' = u.
Proof.
  intros (c1 & (f1 & O1 & L1) & E1 & D1 & U1) (c2 & (f2 & O2 & L2) & E2 & D2 & U2).
  rewrite O1 in O2. injection O2 as <-. rewrite L1 in L2. injection L2 as <-.
  split_and!; congruence.
Qed.

(** A failure of the configuration block does not depend on the invoker, on
    the request, on [outputs] or on the processor; it is a built-in
    exception, and it leaves at most the first two configuration attributes
    assigned. *)
Lemma execute_config_failure {sys} (w : world sys) :
  (∃ exe d u, configured w exe d u) ∨
  ∃ b : builtin_error,
    ∀ p : processor, ∃ p',
      (∀ (run_docker_container : invoker sys) (O : Type)
         (data : gmap string value) (outputs : option O),
         run (execute run_docker_container data outputs) p w =
           (Raised b, p',
            World (environ w) (fs w) (trace w ++ [EvOpen (config_file_path w)]))) ∧
      (p' = p ∨
       (∃ exe, p' = set_docker_executable exe p) ∨
       (∃ exe d, p' = set_download_dir (Str.rstrip slash d)
                        (set_docker_executable exe p))).
Proof.
  unfold configured, reads.
  destruct (os_open sys (config_file_path w) (fs w)) as [f|b0] eqn:Hopen.
  1: destruct (json_load sys f) as [[cfg|]|b1] eqn:Hload.
  1: destruct (cfg !! "docker_executable") as [exe|] eqn:Hexe.
  1: destruct (cfg !! "download_dir") as [[| | |d|]|] eqn:Hdir.
  1-6: destruct (cfg !! "download_url") as [[| | |u|]|] eqn:Hurl.
  all: first
    [ left; by eauto 12
    | right; eexists; intros p; eexists; split;
      [ intros rdc O data outputs; unfold_execute;
        fold (config_file_path w); rewrite Hopen; simpl;
        rewrite ?Hload; simpl;
        unfold subscript; rewrite ?Hexe; simpl; rewrite ?Hdir; simpl;
        rewrite ?Hurl; simpl; reflexivity
      | by eauto 10 ] ].
Qed.

Section Execution.

Context {sys : system}.
Variable run_docker_container : invoker sys.

(** With the configuration read, [execute] is the following decision tree. *)
Lemma execute_configured {O} (data : gmap string value) (outputs : option O)
    (p : processor) (w : world sys) (exe : value) (d u : string) :
  configured w exe d u →
  let dir := Str.rstrip slash d in
  let url := Str.rstrip slash u in
  let p1 := with_config exe dir url p in
  let od := output_dir dir (process_id p) (my_job_id p) in
  let t1 := (trace w ++ [EvOpen (config_file_path w)]) ++ [EvMakedirs od] in
  run (execute run_docker_container data outputs) p w =
  match os_makedirs sys od (fs w) with
  | (Err b, fs1) => (Raised b, p1, World (environ w) fs1 t1)
  | (Ok _, fs1) =>
    match first_missing data with
    | Some k => (Raised (validation_error k), p1, World (environ w) fs1 t1)
    | None =>
      let inv := invocation_for exe dir p data in
      let res := (run_docker_container inv fs1).1 in
      let w2 := World (environ w) (run_docker_container inv fs1).2
                  (t1 ++ [EvRunDocker inv]) in
      if returncode res =? 0 then
        match response_object (metadata p)
                (downloadlink1 url (process_id p) (my_job_id p))
                (downloadlink2 url (process_id p) (my_job_id p)) with
        | Returned r => (Returned ("application/json", r), p1, w2)
        | Raised e => (Raised e, p1, w2)
        end
      else
        (Raised (execution_error
                   (if (String.length (user_err_msg res) =? 0)%nat
                    then "no message" else user_err_msg res)), p1, w2)
    end
  end.
Proof.
  intros (cfg & (f & Hopen & Hload) & Hexe & Hdir & Hurl).
  unfold_execute. fold (config_file_path w).
  rewrite Hopen; simpl. rewrite Hload; simpl. unfold subscript at 1 2 3.
  rewrite Hexe; simpl. rewrite Hdir; simpl. rewrite Hurl; simpl.
  destruct (os_makedirs sys (output_dir (Str.rstrip slash d) (process_id p) (my_job_id p))
              (fs w)) as [[[]|b] fs1]; simpl; [|done].
  rewrite first_missing_cases; unfold missing.
  (destruct (is_None (dict_get data "inputFile1_tif")); simpl; [done|]).
  (destruct (is_None (dict_get data "inputFile2_gpkg")); simpl; [done|]).
  (destruct (is_None (dict_get data "inputFile3_dbf")); simpl; [done|]).
  fold (invocation_for exe (Str.rstrip slash d) p data).
  destruct (run_docker_container _ _) as [res fs2]; simpl.
  (destruct (returncode res =? 0); simpl; [|done]).
  fold (downloadlink1 (Str.rstrip slash u) (process_id p) (my_job_id p)).
  fold (downloadlink2 (Str.rstrip slash u) (process_id p) (my_job_id p)).
  by destruct (response_object _ _ _).
Qed.

(** The message of a parameter check, written out. *)
Lemma missing_parameter_spelled k :
  missing_parameter k =
  "Missing parameter " +:+ String "034"%char EmptyString +:+ k
    +:+ String "034"%char EmptyString +:+ ". Please provide a " +:+ k +:+ ".".
Proof. reflexivity. Qed.

(** The container is not reached while a required key is missing. *)
Lemma execute_missing {O} (data : gmap string value) (outputs : option O)
    (p : processor) (w : world sys) (k : string) :
  first_missing data = Some k →
  ∃ e p' w',
    run (execute run_docker_container data outputs) p w = (Raised e, p', w') ∧
    docker_calls (trace w') = docker_calls (trace w) ∧
    (is_ProcessorExecuteError e = true → e = validation_error k) ∧
    (∀ exe d u fs1,
       configured w exe d u →
       os_makedirs sys
         (output_dir (Str.rstrip slash d) (process_id p) (my_job_id p)) (fs w)
         = (Ok tt, fs1) →
       e = validation_error k ∧
       fs w' = fs1 ∧
       trace w' =
         trace w ++ [EvOpen (config_file_path w);
                     EvMakedirs (output_dir (Str.rstrip slash d)
                                   (process_id p) (my_job_id p))]).
Proof.
  intros Hk.
  destruct (execute_config_failure w) as [(exe & d & u & Hc)|(b & Hall)].
  - rewrite (execute_configured data outputs p w exe d u Hc). simpl.
    rewrite Hk.
    destruct (os_makedirs sys _ (fs w)) as [[[]|b] fs1] eqn:Hmk;
      do 3 eexists; (split; [reflexivity|]); simpl;
      rewrite !docker_calls_app, !app_nil_r; split_and!; try done;
      intros exe' d' u' fs1' Hc' Hmk';
      destruct (configured_unique w exe d u exe' d' u' Hc Hc') as (-> & -> & ->);
      rewrite Hmk in Hmk'; simplify_eq.
    by rewrite <- app_assoc.
  - destruct (Hall p) as (p' & Hrun & _).
    do 3 eexists. split; [apply Hrun|]. simpl.
    rewrite docker_calls_app, app_nil_r. split_and!; [done|done|].
    intros exe d u fs1 Hc Hmk. exfalso.
    pose proof (execute_configured data outputs p w exe d u Hc) as Hs.
    simpl in Hs. rewrite Hrun, Hmk, Hk in Hs. simplify_eq.
Qed.

(** C1: a request in which one of the three required keys is absent or null
    makes [execute] raise; the container invoker is not called; the
    [ProcessorExecuteError] raised (the only one that can be, and the one that
    is raised once the configuration is read and [os.makedirs] has returned)
    is the validation error whose message names that key and neither of the
    other two; the file system is then the one [os.makedirs] left. *)
Theorem missing_field_raises_validation_error {O}
    (data : gmap string value) (outputs : option O)
    (p : processor) (w : world sys) (k : string) :
  k ∈ ["inputFile1_tif"; "inputFile2_gpkg"; "inputFile3_dbf"] →
  (data !! k = None ∨ data !! k = Some VNone) →
  (∀ k', k' ∈ ["inputFile1_tif"; "inputFile2_gpkg"; "inputFile3_dbf"] →
         k' ≠ k → ∃ v, data !! k' = Some v ∧ v ≠ VNone) →
  let quote := String "034"%char EmptyString in
  let msg := "Missing parameter " +:+ quote +:+ k +:+ quote
               +:+ ". Please provide a " +:+ k +:+ "." in
  ∃ e p' w',
    run (execute run_docker_container data outputs) p w = (Raised e, p', w') ∧
    docker_calls (trace w') = docker_calls (trace w) ∧
    (is_ProcessorExecuteError e = true → e = ProcessorExecuteError [msg] None) ∧
    (∀ exe d u fs1,
       configured w exe d u →
       os_makedirs sys
         (Str.rstrip slash d +:+ "/out/" +:+ process_id p +:+ "/job_" +:+ my_job_id p)
         (fs w) = (Ok tt, fs1) →
       e = ProcessorExecuteError [msg] None ∧ fs w' = fs1) ∧
    (∀ k', k' ∈ ["inputFile1_tif"; "inputFile2_gpkg"; "inputFile3_dbf"] →
       Str.contains k' msg = true ↔ k' = k).
Proof.
  intros Hk Habsent Hothers quote msg.
  apply missing_iff in Habsent.
  assert (first_missing data = Some k) as Hfirst.
  { apply first_missing_only; [done|done|].
    intros k' Hk' Hne. apply present_iff. by apply Hothers. }
  destruct (execute_missing data outputs p w k Hfirst)
    as (e & p' & w' & Hrun & Hcalls & Hpee & Hval).
  exists e, p', w'. split_and!; try done.
  - intros exe d u fs1 Hc Hmk.
    destruct (Hval exe d u fs1 Hc Hmk) as (He & Hfs & _). done.
  - intros k' Hk'. by apply (missing_parameter_names k k').
Qed.

(** C9: the three checks run in the order [inputFile1_tif],
    [inputFile2_gpkg], [inputFile3_dbf]; when any of the keys is absent or
    null, however many, [execute] raises one validation error, for the first
    such key in that order, with the message that names this key and no
    other, and does not call the invoker. *)
Theorem first_missing_field_is_reported {O}
    (data : gmap string value) (outputs : option O)
    (p : processor) (w : world sys) (exe : value) (d u : string) (fs1 : FS sys) :
  configured w exe d u →
  os_makedirs sys
    (Str.rstrip slash d +:+ "/out/" +:+ process_id p +:+ "/job_" +:+ my_job_id p)
    (fs w) = (Ok tt, fs1) →
  (∃ k, k ∈ ["inputFile1_tif"; "inputFile2_gpkg"; "inputFile3_dbf"] ∧
        (data !! k = None ∨ data !! k = Some VNone)) →
  ∃ k0 before after,
    ["inputFile1_tif"; "inputFile2_gpkg"; "inputFile3_dbf"] = before ++ k0 :: after ∧
    (data !! k0 = None ∨ data !! k0 = Some VNone) ∧
    (∀ k', k' ∈ before → ∃ v, data !! k' = Some v ∧ v ≠ VNone) ∧
    let quote := String "034"%char EmptyString in
    let msg := "Missing parameter " +:+ quote +:+ k0 +:+ quote
                 +:+ ". Please provide a " +:+ k0 +:+ "." in
    let res := run (execute run_docker_container data outputs) p w in
    res.1.1 = Raised (ProcessorExecuteError [msg] None) ∧
    (∀ k', k' ∈ ["inputFile1_tif"; "inputFile2_gpkg"; "inputFile3_dbf"] →
       Str.contains k' msg = true ↔ k' = k0) ∧
    docker_calls (trace res.2) = docker_calls (trace w) ∧
    fs res.2 = fs1.
Proof.
  intros Hc Hmk (k & Hk & Hm). apply missing_iff in Hm.
  destruct (first_missing data) as [k0|] eqn:Hfirst.
  2: { apply well_formed_first_missing in Hfirst.
       rewrite (Hfirst k Hk) in Hm. done. }
  destruct (first_missing_first data k0 Hfirst)
    as (before & after & Hsplit & Hm0 & Hbefore).
  exists k0, before, after. split_and!.
  - done.
  - by apply missing_iff.
  - intros k' Hk'. apply present_iff. by apply Hbefore.
  - simpl.
    rewrite (execute_configured data outputs p w exe d u Hc). simpl.
    unfold output_dir. rewrite Hmk, Hfirst. simpl.
    split_and!; try done.
    + intros k' Hk'. apply (missing_parameter_names k0 k'); [|done].
      rewrite Hsplit. apply elem_of_app. right. apply list_elem_of_here.
    + by rewrite !docker_calls_app, !app_nil_r.
Qed.


(** A well-formed request in a working environment reaches the invoker. *)
Lemma execute_well_formed {O} (data : gmap string value) (outputs : option O)
    (p : processor) (w : world sys) (exe : value) (d u : string) (fs1 : FS sys) :
  well_formed data →
  configured w exe d u →
  os_makedirs sys
    (output_dir (Str.rstrip slash d) (process_id p) (my_job_id p)) (fs w)
    = (Ok tt, fs1) →
  let dir := Str.rstrip slash d in
  let url := Str.rstrip slash u in
  let od := output_dir dir (process_id p) (my_job_id p) in
  let inv := invocation_for exe dir p data in
  let res := reported run_docker_container fs1 exe dir p data in
  run (execute run_docker_container data outputs) p w =
  (if returncode res =? 0 then
     match response_object (metadata p)
             (downloadlink1 url (process_id p) (my_job_id p))
             (downloadlink2 url (process_id p) (my_job_id p)) with
     | Returned r => Returned ("application/json", r)
     | Raised e => Raised e
     end
   else
     Raised (execution_error
               (if (String.length (user_err_msg res) =? 0)%nat
                then "no message" else user_err_msg res)),
   with_config exe dir url p,
   World (environ w) (run_docker_container inv fs1).2
     (trace w ++ [EvOpen (config_file_path w); EvMakedirs od; EvRunDocker inv])).
Proof.
  intros Hwf%well_formed_first_missing Hc Hmk. simpl.
  rewrite (execute_configured data outputs p w exe d u Hc). simpl.
  rewrite Hmk, Hwf. unfold reported.
  rewrite <- !app_assoc. simpl.
  destruct (returncode _ =? 0); [|done].
  by destruct (response_object _ _ _).
Qed.

(** The invocation of a request that carries its three inputs, written out. *)
Lemma invocation_for_spelled (data : gmap string value) exe dir p tif gpkg dbf :
  dict_get data "inputFile1_tif" = tif →
  dict_get data "inputFile2_gpkg" = gpkg →
  dict_get data "inputFile3_dbf" = dbf →
  invocation_for exe dir p data =
  Invocation exe (image_name p) (script_name p)
    (dir +:+ "/out/" +:+ process_id p +:+ "/job_" +:+ my_job_id p)
    [ tif; gpkg; dbf;
      VStr (dir +:+ "/out/" +:+ process_id p +:+ "/job_" +:+ my_job_id p
              +:+ "/weight_table-" +:+ my_job_id p +:+ ".csv");
      VStr (dir +:+ "/out/" +:+ process_id p +:+ "/job_" +:+ my_job_id p
              +:+ "/weight_table-" +:+ my_job_id p +:+ ".rds") ].
Proof.
  intros <- <- <-. unfold invocation_for.
  by rewrite csv_path_spelled, rds_path_spelled.
Qed.

(** C2: for a request that carries its three inputs the invoker is called
    once, on the file system [os.makedirs] left, and its argument list is the
    tif, gpkg and dbf values of the request followed by the csv and the rds
    output path under the output directory: five elements, in that order.
    The call is the one the result comes from: the file system afterwards is
    the one the invoker left, and [execute] raises its execution error
    exactly when this call reports a non-zero exit code. *)
Theorem well_formed_request_argument_list {O}
    (data : gmap string value) (outputs : option O)
    (p : processor) (w : world sys) (exe : value) (d u : string)
    (fs1 : FS sys) (tif gpkg dbf : value) :
  data !! "inputFile1_tif" = Some tif → tif ≠ VNone →
  data !! "inputFile2_gpkg" = Some gpkg → gpkg ≠ VNone →
  data !! "inputFile3_dbf" = Some dbf → dbf ≠ VNone →
  configured w exe d u →
  let od := Str.rstrip slash d +:+ "/out/" +:+ process_id p
              +:+ "/job_" +:+ my_job_id p in
  let inv :=
    Invocation exe (image_name p) (script_name p) od
      [ tif; gpkg; dbf;
        VStr (od +:+ "/weight_table-" +:+ my_job_id p +:+ ".csv");
        VStr (od +:+ "/weight_table-" +:+ my_job_id p +:+ ".rds") ] in
  os_makedirs sys od (fs w) = (Ok tt, fs1) →
  let res := run (execute run_docker_container data outputs) p w in
  docker_calls (trace res.2) = docker_calls (trace w) ++ [inv] ∧
  trace res.2 =
    trace w ++ [EvOpen (config_file_path w); EvMakedirs od; EvRunDocker inv] ∧
  fs res.2 = (run_docker_container inv fs1).2 ∧
  ((∃ m, res.1.1 = Raised (ProcessorExecuteError [] (Some m)))
   ↔ returncode (run_docker_container inv fs1).1 ≠ 0).
Proof.
  intros H1 N1 H2 N2 H3 N3 Hc od inv Hmk.
  destruct (carries_well_formed data tif gpkg dbf H1 N1 H2 N2 H3 N3)
    as (Hwf & G1 & G2 & G3).
  assert (invocation_for exe (Str.rstrip slash d) p data = inv) as Hinv.
  { rewrite (invocation_for_spelled data exe (Str.rstrip slash d) p
               tif gpkg dbf G1 G2 G3).
    subst inv od. by rewrite !StrFacts.append_assoc. }
  simpl.
  rewrite (execute_well_formed data outputs p w exe d u fs1 Hwf Hc Hmk).
  unfold reported. rewrite Hinv. fold inv. fold od. simpl.
  split_and!; try done.
  - rewrite docker_calls_app. simpl. done.
  - destruct (Z.eqb_spec (returncode (run_docker_container inv fs1).1) 0)
      as [Hz|Hnz].
    + split; [|done]. intros (m & Hm).
      pose proof (response_object_inv (metadata p)
        (downloadlink1 (Str.rstrip slash u) (process_id p) (my_job_id p))
        (downloadlink2 (Str.rstrip slash u) (process_id p) (my_job_id p))) as Hr.
      destruct (response_object _ _ _); simplify_eq.
    + split; [done|]. intros _. by eexists.
Qed.

(** The execution of a request that carries its three inputs, in terms of
    the invocation written out. *)
Lemma execute_carried {O} (data : gmap string value) (outputs : option O)
    (p : processor) (w : world sys) (exe : value) (d u : string)
    (fs1 : FS sys) (tif gpkg dbf : value) :
  data !! "inputFile1_tif" = Some tif → tif ≠ VNone →
  data !! "inputFile2_gpkg" = Some gpkg → gpkg ≠ VNone →
  data !! "inputFile3_dbf" = Some dbf → dbf ≠ VNone →
  configured w exe d u →
  let od := Str.rstrip slash d +:+ "/out/" +:+ process_id p
              +:+ "/job_" +:+ my_job_id p in
  let inv :=
    Invocation exe (image_name p) (script_name p) od
      [ tif; gpkg; dbf;
        VStr (od +:+ "/weight_table-" +:+ my_job_id p +:+ ".csv");
        VStr (od +:+ "/weight_table-" +:+ my_job_id p +:+ ".rds") ] in
  os_makedirs sys od (fs w) = (Ok tt, fs1) →
  let res := (run_docker_container inv fs1).1 in
  (run (execute run_docker_container data outputs) p w).1.1 =
  if returncode res =? 0 then
    match response_object (metadata p)
            (downloadlink1 (Str.rstrip slash u) (process_id p) (my_job_id p))
            (downloadlink2 (Str.rstrip slash u) (process_id p) (my_job_id p)) with
    | Returned r => Returned ("application/json", r)
    | Raised e => Raised e
    end
  else
    Raised (execution_error
              (if (String.length (user_err_msg res) =? 0)%nat
               then "no message" else user_err_msg res)).
Proof.
  intros H1 N1 H2 N2 H3 N3 Hc od inv Hmk.
  destruct (carries_well_formed data tif gpkg dbf H1 N1 H2 N2 H3 N3)
    as (Hwf & G1 & G2 & G3).
  assert (invocation_for exe (Str.rstrip slash d) p data = inv) as Hinv.
  { rewrite (invocation_for_spelled data exe (Str.rstrip slash d) p
               tif gpkg dbf G1 G2 G3).
    subst inv od. by rewrite !StrFacts.append_assoc. }
  simpl.
  rewrite (execute_well_formed data outputs p w exe d u fs1 Hwf Hc Hmk).
  unfold reported. rewrite Hinv. done.
Qed.

(** C3: for a request that carries its three inputs, when the invoker
    reports exit code 0, [execute] returns the media type
    [application/json] and a response whose only key is [outputs], holding
    exactly [weight_table_csv] and [weight_table_rds]; each entry carries the
    title and description of the metadata and, as href, the download link
    [{download_url}/out/{process_id}/job_{job_id}/weight_table-{job_id}]
    with extension [.csv] and [.rds]. *)
Theorem exit_code_zero_returns_both_links {O}
    (data : gmap string value) (outputs : option O)
    (p : processor) (w : world sys) (exe : value) (d u : string)
    (fs1 : FS sys) (tif gpkg dbf : value)
    (t1 d1 t2 d2 : string) :
  data !! "inputFile1_tif" = Some tif → tif ≠ VNone →
  data !! "inputFile2_gpkg" = Some gpkg → gpkg ≠ VNone →
  data !! "inputFile3_dbf" = Some dbf → dbf ≠ VNone →
  configured w exe d u →
  describes (metadata p) "weight_table_csv" t1 d1 →
  describes (metadata p) "weight_table_rds" t2 d2 →
  let od := Str.rstrip slash d +:+ "/out/" +:+ process_id p
              +:+ "/job_" +:+ my_job_id p in
  let inv :=
    Invocation exe (image_name p) (script_name p) od
      [ tif; gpkg; dbf;
        VStr (od +:+ "/weight_table-" +:+ my_job_id p +:+ ".csv");
        VStr (od +:+ "/weight_table-" +:+ my_job_id p +:+ ".rds") ] in
  os_makedirs sys od (fs w) = (Ok tt, fs1) →
  returncode (run_docker_container inv fs1).1 = 0 →
  ∃ (resp : response) (outs : gmap string (gmap string string)),
    (run (execute run_docker_container data outputs) p w).1.1
      = Returned ("application/json", resp) ∧
    dom resp = {[ "outputs" ]} ∧
    resp !! "outputs" = Some outs ∧
    dom outs = {[ "weight_table_csv"; "weight_table_rds" ]} ∧
    outs !! "weight_table_csv" =
      Some {[ "title" := t1; "description" := d1;
              "href" := Str.rstrip slash u +:+ "/out/" +:+ process_id p +:+ "/job_"
                          +:+ my_job_id p +:+ "/weight_table-" +:+ my_job_id p +:+ ".csv" ]} ∧
    outs !! "weight_table_rds" =
      Some {[ "title" := t2; "description" := d2;
              "href" := Str.rstrip slash u +:+ "/out/" +:+ process_id p +:+ "/job_"
                          +:+ my_job_id p +:+ "/weight_table-" +:+ my_job_id p +:+ ".rds" ]}.
Proof.
  intros H1 N1 H2 N2 H3 N3 Hc Hcsv Hrds od inv Hmk Hzero.
  rewrite (execute_carried data outputs p w exe d u fs1 tif gpkg dbf
             H1 N1 H2 N2 H3 N3 Hc Hmk).
  fold od. fold inv. rewrite Hzero. simpl.
  rewrite (response_object_described _ _ _ _ _ _ _ Hcsv Hrds).
  do 2 eexists. split; [reflexivity|].
  rewrite dom_singleton_L, lookup_singleton_eq.
  split_and!; [done|done| |..].
  - rewrite dom_insert_L, dom_singleton_L. done.
  - rewrite lookup_insert_eq. unfold output_entry.
    by rewrite downloadlink1_spelled.
  - rewrite lookup_insert_ne by done. rewrite lookup_singleton_eq.
    unfold output_entry. by rewrite downloadlink2_spelled.
Qed.

(** C4: for a request that carries its three inputs, [execute] raises a
    [ProcessorExecuteError] exactly when the invoker reports a non-zero exit
    code; the error then carries, as [user_msg], the text
    [Running docker container failed: ] followed by the invoker's user-facing
    message, or by [no message] when that message is empty, so that the
    message contains the placeholder, respectively the diagnostic verbatim. *)
Theorem execution_error_iff_nonzero_exit {O}
    (data : gmap string value) (outputs : option O)
    (p : processor) (w : world sys) (exe : value) (d u : string)
    (fs1 : FS sys) (tif gpkg dbf : value) :
  data !! "inputFile1_tif" = Some tif → tif ≠ VNone →
  data !! "inputFile2_gpkg" = Some gpkg → gpkg ≠ VNone →
  data !! "inputFile3_dbf" = Some dbf → dbf ≠ VNone →
  configured w exe d u →
  let od := Str.rstrip slash d +:+ "/out/" +:+ process_id p
              +:+ "/job_" +:+ my_job_id p in
  let inv :=
    Invocation exe (image_name p) (script_name p) od
      [ tif; gpkg; dbf;
        VStr (od +:+ "/weight_table-" +:+ my_job_id p +:+ ".csv");
        VStr (od +:+ "/weight_table-" +:+ my_job_id p +:+ ".rds") ] in
  os_makedirs sys od (fs w) = (Ok tt, fs1) →
  let res := (run_docker_container inv fs1).1 in
  let r := (run (execute run_docker_container data outputs) p w).1.1 in
  ((∃ e, r = Raised e ∧ is_ProcessorExecuteError e = true) ↔ returncode res ≠ 0) ∧
  (returncode res ≠ 0 →
   ∃ m, r = Raised (ProcessorExecuteError [] (Some m)) ∧
     (user_err_msg res = EmptyString →
        m = "Running docker container failed: no message" ∧
        Str.contains "no message" m = true) ∧
     (user_err_msg res ≠ EmptyString →
        m = "Running docker container failed: " +:+ user_err_msg res ∧
        Str.contains (user_err_msg res) m = true)).
Proof.
  intros H1 N1 H2 N2 H3 N3 Hc od inv Hmk res r. subst r.
  rewrite (execute_carried data outputs p w exe d u fs1 tif gpkg dbf
             H1 N1 H2 N2 H3 N3 Hc Hmk).
  fold od. fold inv. fold res.
  destruct (Z.eqb_spec (returncode res) 0) as [Hz|Hnz].
  - split.
    + split; [|done]. intros (e & He & Hpee).
      pose proof (response_object_inv (metadata p)
        (downloadlink1 (Str.rstrip slash u) (process_id p) (my_job_id p))
        (downloadlink2 (Str.rstrip slash u) (process_id p) (my_job_id p))) as Hr.
      destruct (response_object _ _ _); simplify_eq. congruence.
    + done.
  - split.
    + split; [done|]. intros _. eexists. split; [reflexivity|done].
    + intros _. eexists. split; [reflexivity|].
      split.
      * intros ->. split; [done|]. by vm_compute.
      * intros Hne. destruct (user_err_msg res) as [|a rest]; [done|].
        split; [done|]. exact (StrFacts.contains_suffix (String a rest) _).
Qed.

(** With a configuration in place, whatever happens later, the stripped
    locations are stored and the directory is asked for. *)
Lemma execute_configured_self {O} (data : gmap string value) (outputs : option O)
    (p : processor) (w : world sys) (exe : value) (d u : string) :
  configured w exe d u →
  (run (execute run_docker_container data outputs) p w).1.2
    = with_config exe (Str.rstrip slash d) (Str.rstrip slash u) p ∧
  made_dirs (trace (run (execute run_docker_container data outputs) p w).2)
    = made_dirs (trace w)
        ++ [output_dir (Str.rstrip slash d) (process_id p) (my_job_id p)].
Proof.
  intros Hc. rewrite (execute_configured data outputs p w exe d u Hc). simpl.
  destruct (os_makedirs sys _ (fs w)) as [[[]|b] fs1]; simpl;
    try (destruct (first_missing data); simpl);
    try (destruct (returncode _ =? 0); simpl);
    try (destruct (response_object _ _ _); simpl);
    rewrite !made_dirs_app; simpl; by rewrite ?app_nil_r.
Qed.

Lemma href_of_response t1 d1 t2 d2 l1 l2 :
  let resp : response :=
    {[ "outputs" := {[ "weight_table_csv" := output_entry t1 d1 l1;
                       "weight_table_rds" := output_entry t2 d2 l2 ]} ]} in
  href_of resp "weight_table_csv" = Some l1 ∧
  href_of resp "weight_table_rds" = Some l2.
Proof.
  intros resp. subst resp. unfold href_of, output_entry.
  rewrite lookup_singleton_eq, lookup_insert_eq.
  rewrite (lookup_insert_ne _ "weight_table_csv" "weight_table_rds") by done.
  rewrite lookup_singleton_eq.
  split.
  - rewrite !lookup_insert_ne by done. apply lookup_singleton_eq.
  - rewrite !lookup_insert_ne by done. apply lookup_singleton_eq.
Qed.

Lemma execute_produces {O} (data : gmap string value) (outputs : option O)
    (p : processor) (w : world sys) (exe : value) (d u : string) :
  configured w exe d u →
  let od := output_dir (Str.rstrip slash d) (process_id p) (my_job_id p) in
  produces (run (execute run_docker_container data outputs) p w) w
    od
    (join od (downloadfilename1 (my_job_id p)))
    (join od (downloadfilename2 (my_job_id p)))
    (downloadlink1 (Str.rstrip slash u) (process_id p) (my_job_id p))
    (downloadlink2 (Str.rstrip slash u) (process_id p) (my_job_id p)).
Proof.
  intros Hc od. unfold produces.
  split; [apply (execute_configured_self data outputs p w exe d u Hc)|].
  assert (∀ (l : list invocation) i, l ≠ l ++ [i]) as Hgrow.
  { intros l i H%(f_equal length). rewrite length_app in H. simpl in H. lia. }
  rewrite (execute_configured data outputs p w exe d u Hc). simpl. fold od.
  destruct (os_makedirs sys od (fs w)) as [[[]|b] fs1]; simpl.
  2: { rewrite !docker_calls_app; simpl; rewrite !app_nil_r.
       split; [intros inv H; by destruct (Hgrow _ _ H)|done]. }
  destruct (first_missing data); simpl.
  { rewrite !docker_calls_app; simpl; rewrite !app_nil_r.
    split; [intros inv H; by destruct (Hgrow _ _ H)|done]. }
  pose proof (response_object_inv (metadata p)
      (downloadlink1 (Str.rstrip slash u) (process_id p) (my_job_id p))
      (downloadlink2 (Str.rstrip slash u) (process_id p) (my_job_id p))) as Hr.
  destruct (returncode _ =? 0); simpl;
    [destruct (response_object _ _ _) as [r|e]; simpl|];
    (split;
     [ intros inv; rewrite !docker_calls_app; simpl; rewrite !app_nil_r;
       intros H%app_inv_head; by simplify_eq |]);
    try done.
  destruct Hr as (t1 & d1 & t2 & d2 & _ & _ & ->).
  intros mt resp [= <- <-]. apply href_of_response.
Qed.

(** C7: the [outputs] argument of [execute] does not influence the
    execution: two calls that differ in it only, whatever its type and
    whether or not it is [None], have the same result, leave the same
    processor and the same world; and a response, when one is returned,
    holds both [weight_table_csv] and [weight_table_rds] and nothing else. *)
Theorem outputs_parameter_is_ignored {O1 O2}
    (data : gmap string value) (outputs1 : option O1) (outputs2 : option O2)
    (p : processor) (w : world sys) :
  run (execute run_docker_container data outputs1) p w
    = run (execute run_docker_container data outputs2) p w ∧
  match (run (execute run_docker_container data outputs1) p w).1.1 with
  | Returned (_, resp) =>
      ∃ outs : gmap string (gmap string string),
        resp !! "outputs" = Some outs ∧
        dom outs = {[ "weight_table_csv"; "weight_table_rds" ]}
  | Raised _ => True
  end.
Proof.
  split; [reflexivity|].
  destruct (execute_config_failure w) as [(exe & d & u & Hc)|(b & Hall)].
  2: { destruct (Hall p) as (p' & -> & _). done. }
  rewrite (execute_configured data outputs1 p w exe d u Hc). simpl.
  destruct (os_makedirs sys _ (fs w)) as [[[]|b] fs1]; simpl; [|done].
  destruct (first_missing data); simpl; [done|].
  destruct (returncode _ =? 0); simpl; [|done].
  pose proof (response_object_inv (metadata p)
      (downloadlink1 (Str.rstrip slash u) (process_id p) (my_job_id p))
      (downloadlink2 (Str.rstrip slash u) (process_id p) (my_job_id p))) as Hr.
  destruct (response_object _ _ _) as [r|e]; simpl; [|done].
  destruct Hr as (t1 & d1 & t2 & d2 & _ & _ & ->).
  eexists. rewrite lookup_singleton_eq. split; [reflexivity|].
  by rewrite dom_insert_L, dom_singleton_L.
Qed.

(** C8: every execution that reads the configuration stores the download
    directory and the download URL with all trailing slashes removed, however
    many the configured strings carry, and builds the output directory from
    the stripped value; and over any execution at all, a stored location that
    did not end in a slash before does not end in one after. *)
Theorem stored_locations_have_no_trailing_slash {O}
    (data : gmap string value) (outputs : option O)
    (p : processor) (w : world sys) :
  let res := run (execute run_docker_container data outputs) p w in
  (stripped (download_dir p) → stripped (download_dir res.1.2)) ∧
  (stripped (download_url p) → stripped (download_url res.1.2)) ∧
  (∀ exe d u n m,
     configured w exe (d +:+ Str.replicate n slash) (u +:+ Str.replicate m slash) →
     download_dir res.1.2 = Some (Str.rstrip slash d) ∧
     download_url res.1.2 = Some (Str.rstrip slash u) ∧
     Str.endswith slash (Str.rstrip slash d) = false ∧
     Str.endswith slash (Str.rstrip slash u) = false ∧
     made_dirs (trace res.2) =
       made_dirs (trace w)
         ++ [output_dir (Str.rstrip slash d) (process_id p) (my_job_id p)]).
Proof.
  intros res. subst res.
  assert (∀ exe d u, configured w exe d u →
            download_dir (run (execute run_docker_container data outputs) p w).1.2
              = Some (Str.rstrip slash d) ∧
            download_url (run (execute run_docker_container data outputs) p w).1.2
              = Some (Str.rstrip slash u)) as Hstored.
  { intros exe d u Hc.
    destruct (execute_configured_self data outputs p w exe d u Hc) as [-> _].
    done. }
  split_and!.
  - destruct (execute_config_failure w) as [(exe & d & u & Hc)|(b & Hall)].
    + destruct (Hstored exe d u Hc) as [-> _].
      intros _ s [= <-]. apply StrFacts.rstrip_no_trailing.
    + destruct (Hall p) as (p' & -> & Hp'). simpl.
      destruct Hp' as [->|[[exe ->]|(exe & d & ->)]]; simpl; try done.
      intros _ s [= <-]. apply StrFacts.rstrip_no_trailing.
  - destruct (execute_config_failure w) as [(exe & d & u & Hc)|(b & Hall)].
    + destruct (Hstored exe d u Hc) as [_ ->].
      intros _ s [= <-]. apply StrFacts.rstrip_no_trailing.
    + destruct (Hall p) as (p' & -> & Hp'). simpl.
      destruct Hp' as [->|[[exe ->]|(exe & d & ->)]]; simpl; done.
  - intros exe d u n m Hc.
    destruct (Hstored _ _ _ Hc) as [Hd Hu].
    destruct (execute_configured_self data outputs p w _ _ _ Hc) as [_ Hmk].
    rewrite StrFacts.rstrip_app_replicate in *.
    split_and!; try done; apply StrFacts.rstrip_no_trailing.
Qed.

End Execution.

(** C5: the output directory, the two file paths and the two links are
    functions of the download directory, the download URL, the process id and
    the job id alone: for given values of these there is one directory, one
    pair of paths and one pair of links that every execution with these values
    produces, whatever the system, the invoker, the request, the [outputs]
    argument, the rest of the processor and the rest of the world.  For
    download directory [/data], download URL [https://x/files] and job id
    [42] the directory is [/data/out/<process_id>/job_42] and the csv link is
    [https://x/files/out/<process_id>/job_42/weight_table-42.csv]. *)
Theorem paths_are_functions_of_root_process_and_job (d u pid jid : string) :
  ∃ od csv_path rds_path csv_link rds_link : string,
    (∀ (sys : system) (run_docker_container : invoker sys) (O : Type)
       (data : gmap string value) (outputs : option O)
       (p : processor) (w : world sys) (exe : value),
       process_id p = pid → my_job_id p = jid →
       configured w exe d u →
       produces (run (execute run_docker_container data outputs) p w) w
         od csv_path rds_path csv_link rds_link) ∧
    (d = "/data" → u = "https://x/files" → jid = "42" →
       od = "/data/out/" +:+ pid +:+ "/job_42" ∧
       csv_link = "https://x/files/out/" +:+ pid +:+ "/job_42/weight_table-42.csv").
Proof.
  exists (output_dir (Str.rstrip slash d) pid jid),
    (join (output_dir (Str.rstrip slash d) pid jid) (downloadfilename1 jid)),
    (join (output_dir (Str.rstrip slash d) pid jid) (downloadfilename2 jid)),
    (downloadlink1 (Str.rstrip slash u) pid jid),
    (downloadlink2 (Str.rstrip slash u) pid jid).
  split.
  - intros sys run_docker_container O data outputs p w exe <- <- Hc.
    exact (execute_produces run_docker_container data outputs p w exe d u Hc).
  - intros -> -> ->. rewrite downloadlink1_spelled. done.
Qed.

(** C6 (as the code has it): a new processor carries the placeholder
    [nothing-yet] as job identity; [set_job_id] stores its argument whenever
    it is called and changes nothing else, so of two calls the later one
    decides. *)
Theorem job_id_is_overwritten_by_each_assignment :
  (∀ def_name md, my_job_id (init def_name md) = "nothing-yet") ∧
  (∀ p job_id,
     my_job_id (set_job_id p job_id) = job_id ∧
     set_job_id p job_id =
       Processor (name p) (metadata p) (supports_outputs p) (process_id p)
         job_id (image_name p) (script_name p)
         (docker_executable p) (download_dir p) (download_url p)) ∧
  (∀ p first second,
     my_job_id (set_job_id (set_job_id p first) second) = second).
Proof. by split_and!. Qed.

(** C6 fails as stated: after a first assignment, a second call of
    [set_job_id] replaces the stored job identity. *)
Lemma job_id_can_be_assigned_twice :
  my_job_id (set_job_id Scenario.fresh "42") = "42" ∧
  my_job_id (set_job_id (set_job_id Scenario.fresh "42") "43") = "43" ∧
  my_job_id (set_job_id (set_job_id Scenario.fresh "42") "43")
    ≠ my_job_id (set_job_id Scenario.fresh "42").
Proof. by split_and!. Qed.


(** ** The theorems at the concrete scenario *)

(** Facts about the scenario that hold by evaluation. *)
Ltac scenario_key :=
  first [ apply list_elem_of_here
        | apply list_elem_of_further, list_elem_of_here
        | apply list_elem_of_further, list_elem_of_further, list_elem_of_here ].

Ltac scenario_keys Hk :=
  repeat (apply elem_of_cons in Hk as [->|Hk]);
  [ try (vm_compute; congruence) .. | by apply elem_of_nil in Hk ].

Ltac scenario_present Hk :=
  repeat (apply elem_of_cons in Hk as [->|Hk]);
  [ try congruence; try (eexists; split; [vm_compute; reflexivity|discriminate]) ..
  | by apply elem_of_nil in Hk ].

Ltac scenario_configured cfg :=
  exists cfg; split;
  [ eexists; split; vm_compute; reflexivity
  | vm_compute; repeat split ].

Ltac scenario_described :=
  eexists; vm_compute; repeat split.

Ltac evaluated := vm_compute; reflexivity.

Lemma missing_field_raises_validation_error_witness :
  let data := delete "inputFile2_gpkg" Scenario.request in
  let w := Scenario.world_of Scenario.config in
  let quote := String "034"%char EmptyString in
  let msg := "Missing parameter " +:+ quote +:+ "inputFile2_gpkg" +:+ quote
               +:+ ". Please provide a " +:+ "inputFile2_gpkg" +:+ "." in
  ∃ e p' w',
    run (execute Scenario.succeeds data (None : option unit)) Scenario.job42 w
      = (Raised e, p', w') ∧
    docker_calls (trace w') = docker_calls (trace w) ∧
    (is_ProcessorExecuteError e = true → e = ProcessorExecuteError [msg] None) ∧
    (∀ exe d u fs1,
       configured w exe d u →
       os_makedirs Mem.sys
         (Str.rstrip slash d +:+ "/out/" +:+ process_id Scenario.job42
            +:+ "/job_" +:+ my_job_id Scenario.job42)
         (fs w) = (Ok tt, fs1) →
       e = ProcessorExecuteError [msg] None ∧ fs w' = fs1) ∧
    (∀ k', k' ∈ ["inputFile1_tif"; "inputFile2_gpkg"; "inputFile3_dbf"] →
       Str.contains k' msg = true ↔ k' = "inputFile2_gpkg").
Proof.
  apply (missing_field_raises_validation_error Scenario.succeeds
           (delete "inputFile2_gpkg" Scenario.request) (None : option unit)
           Scenario.job42 (Scenario.world_of Scenario.config) "inputFile2_gpkg").
  - scenario_key.
  - left. evaluated.
  - intros k' Hk' Hne. scenario_present Hk'.
Defined.

Lemma well_formed_request_argument_list_witness :
  let w := Scenario.world_of Scenario.config in
  let od := "/data/out/weighting-functions/job_42" in
  let inv :=
    Invocation (VStr "/usr/bin/docker") "aquainfra-elbe-usecase-image:20251201"
      "weighting_functions.R" od
      [ VStr "a.tif"; VStr "b.gpkg"; VStr "c.dbf";
        VStr "/data/out/weighting-functions/job_42/weight_table-42.csv";
        VStr "/data/out/weighting-functions/job_42/weight_table-42.rds" ] in
  let fs1 := (Mem.makedirs od (fs w)).2 in
  let res := run (execute Scenario.succeeds Scenario.request (None : option unit))
               Scenario.job42 w in
  docker_calls (trace res.2) = docker_calls (trace w) ++ [inv] ∧
  trace res.2 =
    trace w ++ [EvOpen (config_file_path w); EvMakedirs od; EvRunDocker inv] ∧
  fs res.2 = (Scenario.succeeds inv fs1).2 ∧
  ((∃ m, res.1.1 = Raised (ProcessorExecuteError [] (Some m)))
   ↔ returncode (Scenario.succeeds inv fs1).1 ≠ 0).
Proof.
  apply (well_formed_request_argument_list Scenario.succeeds Scenario.request
           (None : option unit) Scenario.job42
           (Scenario.world_of Scenario.config)
           (VStr "/usr/bin/docker") "/data" "https://x/files"
           (Mem.makedirs "/data/out/weighting-functions/job_42"
              (fs (Scenario.world_of Scenario.config))).2
           (VStr "a.tif") (VStr "b.gpkg") (VStr "c.dbf")).
  - evaluated.
  - discriminate.
  - evaluated.
  - discriminate.
  - evaluated.
  - discriminate.
  - scenario_configured Scenario.config.
  - evaluated.
Defined.

Lemma exit_code_zero_returns_both_links_witness :
  ∃ (resp : response) (outs : gmap string (gmap string string)),
    (run (execute Scenario.succeeds Scenario.request (None : option unit))
       Scenario.job42 (Scenario.world_of Scenario.config)).1.1
      = Returned ("application/json", resp) ∧
    dom resp = {[ "outputs" ]} ∧
    resp !! "outputs" = Some outs ∧
    dom outs = {[ "weight_table_csv"; "weight_table_rds" ]} ∧
    outs !! "weight_table_csv" =
      Some {[ "title" := "Weight table (csv)";
              "description" := "The weights as csv";
              "href" := "https://x/files/out/weighting-functions/job_42/weight_table-42.csv" ]} ∧
    outs !! "weight_table_rds" =
      Some {[ "title" := "Weight table (rds)";
              "description" := "The weights as rds";
              "href" := "https://x/files/out/weighting-functions/job_42/weight_table-42.rds" ]}.
Proof.
  apply (exit_code_zero_returns_both_links Scenario.succeeds Scenario.request
           (None : option unit) Scenario.job42
           (Scenario.world_of Scenario.config)
           (VStr "/usr/bin/docker") "/data" "https://x/files"
           (Mem.makedirs "/data/out/weighting-functions/job_42"
              (fs (Scenario.world_of Scenario.config))).2
           (VStr "a.tif") (VStr "b.gpkg") (VStr "c.dbf")).
  - evaluated.
  - discriminate.
  - evaluated.
  - discriminate.
  - evaluated.
  - discriminate.
  - scenario_configured Scenario.config.
  - scenario_described.
  - scenario_described.
  - evaluated.
  - evaluated.
Defined.

Lemma execution_error_iff_nonzero_exit_witness :
  let w := Scenario.world_of Scenario.config in
  let od := "/data/out/weighting-functions/job_42" in
  let inv :=
    Invocation (VStr "/usr/bin/docker") "aquainfra-elbe-usecase-image:20251201"
      "weighting_functions.R" od
      [ VStr "a.tif"; VStr "b.gpkg"; VStr "c.dbf";
        VStr "/data/out/weighting-functions/job_42/weight_table-42.csv";
        VStr "/data/out/weighting-functions/job_42/weight_table-42.rds" ] in
  let res := (Scenario.fails_with "disk full" inv (Mem.makedirs od (fs w)).2).1 in
  let r := (run (execute (Scenario.fails_with "disk full") Scenario.request
                   (None : option unit)) Scenario.job42 w).1.1 in
  ((∃ e, r = Raised e ∧ is_ProcessorExecuteError e = true) ↔ returncode res ≠ 0) ∧
  (returncode res ≠ 0 →
   ∃ m, r = Raised (ProcessorExecuteError [] (Some m)) ∧
     (user_err_msg res = EmptyString →
        m = "Running docker container failed: no message" ∧
        Str.contains "no message" m = true) ∧
     (user_err_msg res ≠ EmptyString →
        m = "Running docker container failed: " +:+ user_err_msg res ∧
        Str.contains (user_err_msg res) m = true)).
Proof.
  apply (execution_error_iff_nonzero_exit (Scenario.fails_with "disk full")
           Scenario.request (None : option unit) Scenario.job42
           (Scenario.world_of Scenario.config)
           (VStr "/usr/bin/docker") "/data" "https://x/files"
           (Mem.makedirs "/data/out/weighting-functions/job_42"
              (fs (Scenario.world_of Scenario.config))).2
           (VStr "a.tif") (VStr "b.gpkg") (VStr "c.dbf")).
  - evaluated.
  - discriminate.
  - evaluated.
  - discriminate.
  - evaluated.
  - discriminate.
  - scenario_configured Scenario.config.
  - evaluated.
Defined.

Lemma paths_are_functions_of_root_process_and_job_witness :
  ∃ od csv_path rds_path csv_link rds_link : string,
    produces
      (run (execute Scenario.succeeds Scenario.request (None : option unit))
         Scenario.job42 (Scenario.world_of Scenario.config))
      (Scenario.world_of Scenario.config)
      od csv_path rds_path csv_link rds_link ∧
    od = "/data/out/weighting-functions/job_42" ∧
    csv_link = "https://x/files/out/weighting-functions/job_42/weight_table-42.csv".
Proof.
  destruct (paths_are_functions_of_root_process_and_job
              "/data" "https://x/files" "weighting-functions" "42")
    as (od & csv_path & rds_path & csv_link & rds_link & Hall & Hscenario).
  exists od, csv_path, rds_path, csv_link, rds_link. split.
  - apply (Hall Mem.sys Scenario.succeeds unit Scenario.request None Scenario.job42
             (Scenario.world_of Scenario.config) (VStr "/usr/bin/docker")).
    + reflexivity.
    + reflexivity.
    + scenario_configured Scenario.config.
  - apply Hscenario; reflexivity.
Defined.

Lemma stored_locations_have_no_trailing_slash_witness :
  let res := run (execute Scenario.succeeds Scenario.request (None : option unit))
               Scenario.job42 (Scenario.world_of Scenario.config_slashes) in
  download_dir res.1.2 = Some "/data" ∧
  download_url res.1.2 = Some "https://x/files" ∧
  Str.endswith slash "/data" = false ∧
  Str.endswith slash "https://x/files" = false ∧
  made_dirs (trace res.2) = ["/data/out/weighting-functions/job_42"].
Proof.
  apply (proj2 (proj2
           (stored_locations_have_no_trailing_slash Scenario.succeeds
              Scenario.request (None : option unit) Scenario.job42
              (Scenario.world_of Scenario.config_slashes)))
           (VStr "/usr/bin/docker") "/data" "https://x/files" 2%nat 1%nat).
  scenario_configured Scenario.config_slashes.
Defined.

Lemma first_missing_field_is_reported_witness :
  let data := delete "inputFile2_gpkg" (delete "inputFile3_dbf" Scenario.request) in
  let w := Scenario.world_of Scenario.config in
  ∃ k0 before after,
    ["inputFile1_tif"; "inputFile2_gpkg"; "inputFile3_dbf"] = before ++ k0 :: after ∧
    (data !! k0 = None ∨ data !! k0 = Some VNone) ∧
    (∀ k', k' ∈ before → ∃ v, data !! k' = Some v ∧ v ≠ VNone) ∧
    let quote := String "034"%char EmptyString in
    let msg := "Missing parameter " +:+ quote +:+ k0 +:+ quote
                 +:+ ". Please provide a " +:+ k0 +:+ "." in
    let res := run (execute Scenario.succeeds data (None : option unit))
                 Scenario.job42 w in
    res.1.1 = Raised (ProcessorExecuteError [msg] None) ∧
    (∀ k', k' ∈ ["inputFile1_tif"; "inputFile2_gpkg"; "inputFile3_dbf"] →
       Str.contains k' msg = true ↔ k' = k0) ∧
    docker_calls (trace res.2) = docker_calls (trace w) ∧
    fs res.2 = (Mem.makedirs "/data/out/weighting-functions/job_42" (fs w)).2.
Proof.
  apply (first_missing_field_is_reported Scenario.succeeds
           (delete "inputFile2_gpkg" (delete "inputFile3_dbf" Scenario.request))
           (None : option unit) Scenario.job42
           (Scenario.world_of Scenario.config)
           (VStr "/usr/bin/docker") "/data" "https://x/files"
           (Mem.makedirs "/data/out/weighting-functions/job_42"
              (fs (Scenario.world_of Scenario.config))).2).
  - scenario_configured Scenario.config.
  - evaluated.
  - exists "inputFile3_dbf". split; [scenario_key|]. left. evaluated.
Defined.


(** * Further properties of the module *)

(** ** When the configuration cannot be read *)

Lemma with_config_identity exe dir url p :
  same_identity p (with_config exe dir url p).
Proof. by repeat split. Qed.


(** X2: the configuration is read from the path in [AQUAINFRA_CONFIG_FILE]
    when the variable is set and from [./config.json] otherwise; an exception
    of [open] or of [json.load] on that path reaches the caller as it is, and
    the processor and the file system are exactly as they were. *)
Theorem missing_configuration_file_is_reported {sys}
    (run_docker_container : invoker sys) {O}
    (data : gmap string value) (outputs : option O)
    (p : processor) (w : world sys) (b : builtin_error) :
  (os_open sys (config_file_path w) (fs w) = Err b ∨
   ∃ f, os_open sys (config_file_path w) (fs w) = Ok f ∧
        json_load sys f = Err b) →
  config_file_path w =
    match environ w !! "AQUAINFRA_CONFIG_FILE" with
    | Some path => path
    | None => "./config.json"
    end ∧
  run (execute run_docker_container data outputs) p w =
    (Raised b, p,
     World (environ w) (fs w) (trace w ++ [EvOpen (config_file_path w)])).
Proof.
  intros Hfail. split; [by unfold config_file_path; destruct (_ !! _)|].
  unfold_execute. fold (config_file_path w).
  destruct Hfail as [Hopen|(f & Hopen & Hload)]; rewrite Hopen; simpl;
    rewrite ?Hload; simpl; by destruct p.
Qed.

(** X3: the three configuration attributes are assigned one by one.  When
    the file has the executable and the download directory but its
    [download_url] is absent or not a string, [execute] raises [KeyError],
    respectively [AttributeError], and the processor keeps the two new
    attributes next to its old download URL. *)
Theorem configuration_is_stored_attribute_by_attribute {sys}
    (run_docker_container : invoker sys) {O}
    (data : gmap string value) (outputs : option O)
    (p : processor) (w : world sys)
    (cfg : gmap string value) (exe : value) (d : string) :
  reads w cfg →
  cfg !! "docker_executable" = Some exe →
  cfg !! "download_dir" = Some (VStr d) →
  (∀ u, cfg !! "download_url" ≠ Some (VStr u)) →
  let res := run (execute run_docker_container data outputs) p w in
  res.1.1 = Raised (match cfg !! "download_url" with
                    | None => KeyError "download_url"
                    | Some _ => AttributeError
                    end) ∧
  docker_executable res.1.2 = Some exe ∧
  download_dir res.1.2 = Some (Str.rstrip slash d) ∧
  download_url res.1.2 = download_url p ∧
  res.2 = World (environ w) (fs w) (trace w ++ [EvOpen (config_file_path w)]).
Proof.
  intros (f & Hopen & Hload) Hexe Hdir Hurl. unfold_execute.
  fold (config_file_path w). rewrite Hopen. simpl. rewrite Hload. simpl.
  unfold subscript. rewrite Hexe. simpl. rewrite Hdir. simpl.
  destruct (cfg !! "download_url") as [[| | |u|]|]; simpl; try done.
  by destruct (Hurl u).
Qed.

(** X4: when [os.makedirs] raises, as it does with [FileExistsError] when a
    regular file sits at the path of the output directory, [execute] raises
    that exception whatever the request, after storing the configuration;
    the file system is the one [os.makedirs] left and the invoker is not
    called. *)
Theorem occupied_output_path_raises {sys}
    (run_docker_container : invoker sys) {O}
    (data : gmap string value) (outputs : option O)
    (p : processor) (w : world sys) (exe : value) (d u : string)
    (b : builtin_error) (fs1 : FS sys) :
  configured w exe d u →
  os_makedirs sys
    (output_dir (Str.rstrip slash d) (process_id p) (my_job_id p)) (fs w)
    = (Err b, fs1) →
  let od := output_dir (Str.rstrip slash d) (process_id p) (my_job_id p) in
  let res := run (execute run_docker_container data outputs) p w in
  res.1.1 = Raised b ∧
  res.1.2 = with_config exe (Str.rstrip slash d) (Str.rstrip slash u) p ∧
  fs res.2 = fs1 ∧
  trace res.2 = trace w ++ [EvOpen (config_file_path w); EvMakedirs od] ∧
  docker_calls (trace res.2) = docker_calls (trace w).
Proof.
  intros Hc Hod. simpl.
  rewrite (execute_configured run_docker_container data outputs p w exe d u Hc).
  simpl. rewrite Hod. simpl. rewrite <- app_assoc. simpl.
  split_and!; try done.
  by rewrite docker_calls_app, app_nil_r.
Qed.

(** X5: a request that fails validation can be resubmitted without further
    effect, provided the library calls behave the second time as they do on
    a directory that exists: if, on the file system the first execution
    left, the configuration is read as before and [os.makedirs] returns
    without changing anything, the second execution raises the same error,
    leaves the processor and the file system as the first one left them and,
    like the first, does not reach the invoker. *)
Theorem repeated_validation_failure_is_idempotent {sys}
    (run_docker_container : invoker sys) {O}
    (data : gmap string value) (outputs : option O)
    (p : processor) (w : world sys) (exe : value) (d u : string) (k : string)
    (fs1 : FS sys) :
  let od := output_dir (Str.rstrip slash d) (process_id p) (my_job_id p) in
  let first := run (execute run_docker_container data outputs) p w in
  let second := run (execute run_docker_container data outputs) first.1.2 first.2 in
  configured w exe d u →
  os_makedirs sys od (fs w) = (Ok tt, fs1) →
  configured first.2 exe d u →
  os_makedirs sys od fs1 = (Ok tt, fs1) →
  first_missing data = Some k →
  first.1.1 = Raised (validation_error k) ∧
  fs first.2 = fs1 ∧
  second.1.1 = first.1.1 ∧
  second.1.2 = first.1.2 ∧
  fs second.2 = fs first.2 ∧
  docker_calls (trace second.2) = docker_calls (trace w).
Proof.
  intros od first second Hc Hmk Hc' Hmk' Hk. subst second first.
  rewrite (execute_configured run_docker_container data outputs p w exe d u Hc)
    in *.
  simpl in *. fold od in Hc' |- *. rewrite Hmk, Hk in Hc' |- *. simpl in *.
  rewrite (execute_configured run_docker_container data outputs _ _ exe d u Hc').
  simpl. fold od. rewrite Hmk', Hk. simpl.
  split_and!; try done.
  by rewrite !docker_calls_app, !app_nil_r.
Qed.

(** Every execution starts by opening the configuration file and keeps the
    environment and the identity of the processor. *)
Lemma execute_frame {sys} (run_docker_container : invoker sys) {O}
    (data : gmap string value) (outputs : option O)
    (p : processor) (w : world sys) :
  let res := run (execute run_docker_container data outputs) p w in
  same_identity p res.1.2 ∧
  environ res.2 = environ w ∧
  ∃ t, trace res.2 = trace w ++ EvOpen (config_file_path w) :: t.
Proof.
  simpl.
  destruct (execute_config_failure w) as [(exe & d & u & Hc)|(b & Hall)].
  2: destruct (Hall p) as (p' & Hrun & Hp').
  - rewrite (execute_configured run_docker_container data outputs p w exe d u Hc).
    simpl.
    destruct (os_makedirs sys _ (fs w)) as [[[]|b] fs1]; simpl;
      try (destruct (first_missing data); simpl);
      try (destruct (returncode _ =? 0); simpl);
      try (destruct (response_object _ _ _); simpl);
      (split_and!; [apply with_config_identity|done|]);
      rewrite <- !app_assoc; simpl; by eexists.
  - rewrite Hrun. simpl. split_and!; [|done|by eexists].
    destruct Hp' as [->|[[exe ->]|(exe & d & ->)]]; by repeat split.
Qed.

(** X6: whatever happens in it, an execution assigns none of [name],
    [metadata], [supports_outputs], [process_id], [my_job_id], [image_name]
    and [script_name], so that the processor prints as before; it leaves
    the environment alone, and the first thing it does is to open the
    configuration file. *)
Theorem execute_keeps_identity_and_environment {sys}
    (run_docker_container : invoker sys) {O}
    (data : gmap string value) (outputs : option O)
    (p : processor) (w : world sys) :
  let res := run (execute run_docker_container data outputs) p w in
  same_identity p res.1.2 ∧
  repr res.1.2 = repr p ∧
  environ res.2 = environ w ∧
  ∃ t, trace res.2 = trace w ++ EvOpen (config_file_path w) :: t.
Proof.
  destruct (execute_frame run_docker_container data outputs p w)
    as (Hid & Henv & Ht).
  simpl. split_and!; try done.
  unfold repr. by destruct Hid as (-> & _).
Qed.

(** ** What the request contributes *)

(** [execute] reads the request through its three [get] calls only. *)
Lemma execute_ext {sys} (run_docker_container : invoker sys) {O1 O2}
    (data1 data2 : gmap string value)
    (outputs1 : option O1) (outputs2 : option O2) :
  (∀ k, k ∈ required_keys → dict_get data1 k = dict_get data2 k) →
  execute run_docker_container data1 outputs1
    = execute run_docker_container data2 outputs2.
Proof.
  intros H. unfold execute.
  rewrite (H "inputFile1_tif"), (H "inputFile2_gpkg"), (H "inputFile3_dbf");
    [done|unfold required_keys; set_solver by fail..].
Qed.

(** X7: keys of the request other than the three required ones are never
    looked at: adding, changing or removing one changes nothing in the
    execution. *)
Theorem other_request_keys_are_ignored {sys}
    (run_docker_container : invoker sys) {O}
    (data : gmap string value) (outputs : option O) (k : string) (v : value) :
  k ∉ required_keys →
  execute run_docker_container (<[k := v]> data) outputs
    = execute run_docker_container data outputs ∧
  execute run_docker_container (delete k data) outputs
    = execute run_docker_container data outputs.
Proof.
  intros Hk. split; apply execute_ext; intros k' Hk'; unfold dict_get.
  - rewrite lookup_insert_ne; [done|]. by intros ->.
  - rewrite lookup_delete_ne; [done|]. by intros ->.
Qed.

(** X8: a key that is present with the value null and a key that is absent
    are the same request to [execute], for every key. *)
Theorem null_is_absent {sys}
    (run_docker_container : invoker sys) {O}
    (data : gmap string value) (outputs : option O) (k : string) :
  execute run_docker_container (<[k := VNone]> data) outputs
    = execute run_docker_container (delete k data) outputs.
Proof.
  apply execute_ext. intros k' _. unfold dict_get.
  destruct (decide (k = k')) as [->|Hne].
  - by rewrite lookup_insert_eq, lookup_delete_eq.
  - by rewrite lookup_insert_ne, lookup_delete_ne.
Qed.

(** ** What the invoker contributes *)

(** X9: of what the invoker hands back, [execute] uses the exit code, the
    user-facing message when the exit code is not zero, and nothing else:
    two invokers that agree on these and on the file system they leave give
    the same execution, whatever they put on standard output and standard
    error. *)
Theorem stdout_and_stderr_are_ignored {sys}
    (run1 run2 : invoker sys) {O}
    (data : gmap string value) (outputs : option O)
    (p : processor) (w : world sys) :
  (∀ inv fs0,
     returncode (run1 inv fs0).1 = returncode (run2 inv fs0).1 ∧
     (returncode (run1 inv fs0).1 ≠ 0 →
        user_err_msg (run1 inv fs0).1 = user_err_msg (run2 inv fs0).1) ∧
     (run1 inv fs0).2 = (run2 inv fs0).2) →
  run (execute run1 data outputs) p w = run (execute run2 data outputs) p w.
Proof.
  intros Hagree.
  destruct (execute_config_failure w) as [(exe & d & u & Hc)|(b & Hall)].
  2: { destruct (Hall p) as (p' & Hrun & _). by rewrite !Hrun. }
  rewrite !(execute_configured _ data outputs p w exe d u Hc). simpl.
  set (inv := invocation_for exe (Str.rstrip slash d) p data).
  set (od := output_dir (Str.rstrip slash d) (process_id p) (my_job_id p)).
  destruct (os_makedirs sys od (fs w)) as [[[]|b] fs1]; [|done].
  destruct (first_missing data); [done|].
  destruct (Hagree inv fs1) as (Hrc & Hmsg & Hfs).
  rewrite <- Hrc, <- Hfs.
  destruct (Z.eqb_spec (returncode (run1 inv fs1).1) 0) as [Hz|Hnz]; [done|].
  by rewrite (Hmsg Hnz).
Qed.

(** X10: the configuration is read anew by every execution: the three
    configuration attributes a processor carries from an earlier execution
    have no influence on the result or on the world, and when the
    configuration is read they have none on the processor left behind. *)
Theorem stored_configuration_is_not_reused {sys}
    (run_docker_container : invoker sys) {O}
    (data : gmap string value) (outputs : option O)
    (p : processor) (w : world sys)
    (exe0 : option value) (dir0 url0 : option string) :
  let p0 := Processor (name p) (metadata p) (supports_outputs p) (process_id p)
              (my_job_id p) (image_name p) (script_name p) exe0 dir0 url0 in
  let res := run (execute run_docker_container data outputs) p w in
  let res0 := run (execute run_docker_container data outputs) p0 w in
  res0.1.1 = res.1.1 ∧
  res0.2 = res.2 ∧
  ((∃ exe d u, configured w exe d u) → res0.1.2 = res.1.2).
Proof.
  simpl.
  set (p0 := Processor (name p) (metadata p) (supports_outputs p) (process_id p)
               (my_job_id p) (image_name p) (script_name p) exe0 dir0 url0).
  assert (∀ exe d u, configured w exe d u →
            run (execute run_docker_container data outputs) p0 w
            = run (execute run_docker_container data outputs) p w) as Hsame.
  { intros exe d u Hc.
    by rewrite !(execute_configured run_docker_container data outputs _ w exe d u Hc). }
  destruct (execute_config_failure w) as [(exe & d & u & Hc)|(b & Hall)].
  - rewrite (Hsame exe d u Hc). split_and!; try done.
  - destruct (Hall p) as (p' & Hrun & _).
    destruct (Hall p0) as (p0' & Hrun0 & _).
    rewrite Hrun, Hrun0. simpl. split_and!; try done.
    intros (exe & d & u & Hc).
    specialize (Hrun0 run_docker_container O data outputs).
    rewrite (Hsame exe d u Hc), Hrun in Hrun0. by simplify_eq.
Qed.

(** X11: for a request that carries its three inputs, once [os.makedirs]
    has returned, the invoker is called exactly once, after the configuration
    is opened and the directory asked for; it receives the executable exactly
    as configured, whatever JSON value that is, the image and script names of
    the processor and the directory, and it sees the file system
    [os.makedirs] left; the file system after [execute] is the one the
    invoker left, on success and on failure alike: [execute] writes or
    removes nothing afterwards, and the processor holds the configuration. *)
Theorem invoker_runs_once_in_the_created_directory {sys}
    (run_docker_container : invoker sys) {O}
    (data : gmap string value) (outputs : option O)
    (p : processor) (w : world sys) (exe : value) (d u : string)
    (fs1 : FS sys) (tif gpkg dbf : value) :
  data !! "inputFile1_tif" = Some tif → tif ≠ VNone →
  data !! "inputFile2_gpkg" = Some gpkg → gpkg ≠ VNone →
  data !! "inputFile3_dbf" = Some dbf → dbf ≠ VNone →
  configured w exe d u →
  let od := Str.rstrip slash d +:+ "/out/" +:+ process_id p
              +:+ "/job_" +:+ my_job_id p in
  os_makedirs sys od (fs w) = (Ok tt, fs1) →
  let res := run (execute run_docker_container data outputs) p w in
  ∃ inv,
    trace res.2 =
      trace w ++ [EvOpen (config_file_path w); EvMakedirs od; EvRunDocker inv] ∧
    inv_executable inv = exe ∧
    inv_image_name inv = image_name p ∧
    inv_script_name inv = script_name p ∧
    inv_output_dir inv = od ∧
    fs res.2 = (run_docker_container inv fs1).2 ∧
    res.1.2 = with_config exe (Str.rstrip slash d) (Str.rstrip slash u) p.
Proof.
  intros H1 N1 H2 N2 H3 N3 Hc od Hmk.
  destruct (carries_well_formed data tif gpkg dbf H1 N1 H2 N2 H3 N3)
    as (Hwf & _).
  simpl.
  rewrite (execute_well_formed run_docker_container data outputs p w exe d u fs1
             Hwf Hc Hmk).
  simpl. eexists. split; [reflexivity|]. simpl. done.
Qed.

(** ** Paths *)

Lemma length_append (a b : string) :
  String.length (a +:+ b) = (String.length a + String.length b)%nat.
Proof.
  induction a as [|x a IH]; [done|].
  change (S (String.length (a +:+ b)) = S (String.length a + String.length b)).
  by rewrite IH.
Qed.

Lemma append_inj_length (a1 b1 a2 b2 : string) :
  a1 +:+ b1 = a2 +:+ b2 →
  String.length a1 = String.length a2 →
  a1 = a2 ∧ b1 = b2.
Proof.
  revert a2. induction a1 as [|x a1 IH]; intros [|y a2] H Hlen; try done.
  change (String x (a1 +:+ b1) = String y (a2 +:+ b2)) in H.
  injection H as -> H. injection Hlen as Hlen.
  by destruct (IH a2 H Hlen) as [-> ->].
Qed.

Lemma append_inj_l (a b1 b2 : string) : a +:+ b1 = a +:+ b2 → b1 = b2.
Proof. intros H. by destruct (append_inj_length a b1 a b2 H eq_refl). Qed.

(** X12: under one download directory and one process id, different job
    identities give different output directories, different csv paths and
    different rds paths, and a csv path is never an rds path.  Across process
    ids the separation fails: a job identity that contains [/job_] can land in
    the directory of another process. *)
Theorem job_identities_separate_outputs :
  (∀ root pid j1 j2,
     output_dir root pid j1 = output_dir root pid j2 → j1 = j2) ∧
  (∀ root pid j1 j2,
     join (output_dir root pid j1) (downloadfilename1 j1)
       = join (output_dir root pid j2) (downloadfilename1 j2) → j1 = j2) ∧
  (∀ root pid j1 j2,
     join (output_dir root pid j1) (downloadfilename2 j1)
       = join (output_dir root pid j2) (downloadfilename2 j2) → j1 = j2) ∧
  (∀ od1 od2 j1 j2,
     join od1 (downloadfilename1 j1) ≠ join od2 (downloadfilename2 j2)) ∧
  (∀ root a b c,
     output_dir root a (b +:+ "/job_" +:+ c)
       = output_dir root (a +:+ "/job_" +:+ b) c).
Proof.
  assert (∀ (ext : string) root pid j1 j2,
            root +:+ "/out/" +:+ pid +:+ "/job_" +:+ j1 +:+ "/weight_table-" +:+ j1 +:+ ext
            = root +:+ "/out/" +:+ pid +:+ "/job_" +:+ j2 +:+ "/weight_table-" +:+ j2 +:+ ext →
            j1 = j2) as Hfile.
  { intros ext root pid j1 j2 H.
    do 4 apply append_inj_l in H.
    apply (append_inj_length j1 _ j2 _ H).
    apply (f_equal String.length) in H.
    rewrite !length_append in H. simpl in H. lia. }
  split_and!.
  - intros root pid j1 j2 H. unfold output_dir in H.
    by do 4 apply append_inj_l in H.
  - intros root pid j1 j2. rewrite !csv_path_spelled. apply Hfile.
  - intros root pid j1 j2. rewrite !rds_path_spelled. apply Hfile.
  - intros od1 od2 j1 j2 H. unfold join, downloadfilename1, downloadfilename2 in H.
    rewrite <- !StrFacts.append_assoc in H.
    assert (((od1 +:+ "/") +:+ "weight_table-") +:+ j1
            = ((od2 +:+ "/") +:+ "weight_table-") +:+ j2 ∧ ".csv" = ".rds")
      as [_ Hext]; [|done].
    apply append_inj_length; [done|].
    apply (f_equal String.length) in H.
    rewrite (length_append _ ".csv"), (length_append _ ".rds") in H.
    simpl in H. lia.
  - intros root a b c. unfold output_dir.
    by rewrite !StrFacts.append_assoc.
Qed.

(** X13: [execute] does not ask for a job identity: on a processor fresh from
    the constructor it runs with the placeholder, asks for the directory
    [job_nothing-yet] under the process id and stores the configuration. *)
Theorem execute_runs_without_a_job_identity {sys}
    (run_docker_container : invoker sys) {O}
    (data : gmap string value) (outputs : option O)
    (def_name : string) (md : process_metadata)
    (w : world sys) (exe : value) (d u : string) :
  configured w exe d u →
  let res := run (execute run_docker_container data outputs) (init def_name md) w in
  made_dirs (trace res.2) =
    made_dirs (trace w)
      ++ [Str.rstrip slash d +:+ "/out/" +:+ meta_id md +:+ "/job_nothing-yet"] ∧
  my_job_id res.1.2 = "nothing-yet" ∧
  download_dir res.1.2 = Some (Str.rstrip slash d).
Proof.
  intros Hc. simpl.
  destruct (execute_configured_self run_docker_container data outputs
              (init def_name md) w exe d u Hc) as [-> ->].
  done.
Qed.

(** ** The processors a caller can hold *)

(** X14: every processor reached from the constructor by any sequence of
    [set_job_id] and [execute] calls supports outputs, has the process id of
    its metadata, the fixed image and script names, stored locations without
    a trailing slash, and its configuration attributes assigned in order: a
    download URL only with a download directory, a download directory only
    with an executable. *)
Theorem reachable_processors_keep_the_class_invariant (p : processor) :
  reachable p → class_invariant p.
Proof.
  induction 1 as [def_name md|p job_id Hp IH|sys rdc O data outputs p w Hp IH].
  - unfold class_invariant, stripped. simpl.
    split_and!; try done; by intros [? ?].
  - exact IH.
  - destruct IH as (Hso & Hpid & Himg & Hscr & Hdir & Hurl & Hud & Hde).
    destruct (execute_frame rdc data outputs p w)
      as ((_ & Hmd & Hso' & Hpid' & _ & Himg' & Hscr') & _ & _).
    simpl in *. unfold class_invariant.
    rewrite Hso', Hpid', Hmd, Himg', Hscr'.
    split_and!; try done.
    all: destruct (execute_config_failure w) as [(exe & d & u & Hc)|(b & Hall)];
      [ destruct (execute_configured_self rdc data outputs p w exe d u Hc) as [-> _];
        simpl; try done;
        try (intros s [= <-]; apply StrFacts.rstrip_no_trailing)
      | destruct (Hall p) as (p' & -> & [->|[[exe ->]|(exe & d & ->)]]);
        simpl; try done;
        try (intros s [= <-]; apply StrFacts.rstrip_no_trailing) ].
Qed.

(** ** The path of the metadata document *)

Lemma contains_cons_false sub a s :
  Str.contains sub (String a s) = false →
  String.prefix sub (String a s) = false ∧ Str.contains sub s = false.
Proof. simpl. intros H. by apply orb_false_elim in H. Qed.

Lemma append_cons a s t : String a s +:+ t = String a (s +:+ t).
Proof. reflexivity. Qed.

Lemma append_nil_l t : EmptyString +:+ t = t.
Proof. reflexivity. Qed.

Lemma prefix_cons a s b t :
  String.prefix (String a s) (String b t)
  = if ascii_dec a b then String.prefix s t else false.
Proof. reflexivity. Qed.

Lemma prefix_nil_l t : String.prefix EmptyString t = true.
Proof. by destruct t. Qed.

Lemma prefix_nil_r a s : String.prefix (String a s) EmptyString = false.
Proof. reflexivity. Qed.

Ltac decide_chars :=
  repeat match goal with
  | |- context [ascii_dec ?x ?y] =>
      destruct (ascii_dec x y); subst; try discriminate
  end.

(** An occurrence of [.py] cannot begin in one text and end in a [.py] that
    follows it. *)
Lemma prefix_py_straddle (a : ascii) (s rest : string) :
  String.prefix ".py" (String a s +:+ ".py" +:+ rest)
    = String.prefix ".py" (String a s).
Proof.
  destruct s as [|b [|c s]];
    rewrite ?append_cons, ?append_nil_l;
    rewrite ?prefix_cons, ?prefix_nil_l, ?prefix_nil_r; decide_chars;
    rewrite ?prefix_cons, ?prefix_nil_l, ?prefix_nil_r; decide_chars;
    rewrite ?prefix_cons, ?prefix_nil_l, ?prefix_nil_r; decide_chars;
    done.
Qed.

Lemma go_py_no_match (a : ascii) (s : string) :
  String.prefix ".py" (String a s) = false →
  Replace.go ".py" ".json" 0 (String a s)
    = String a (Replace.go ".py" ".json" 0 s).
Proof. intros H. cbn [Replace.go]. by rewrite H. Qed.

Lemma go_py_match (rest : string) :
  Replace.go ".py" ".json" 0 (".py" +:+ rest)
    = ".json" +:+ Replace.go ".py" ".json" 0 rest.
Proof. destruct rest; reflexivity. Qed.

Lemma go_py_keep (a : string) :
  Str.contains ".py" a = false → Replace.go ".py" ".json" 0 a = a.
Proof.
  induction a as [|x a IH]; [done|].
  intros [Hp Hc]%contains_cons_false.
  rewrite go_py_no_match by done. by rewrite IH.
Qed.

Lemma go_py_law (a rest : string) :
  Str.contains ".py" a = false →
  Replace.go ".py" ".json" 0 (a +:+ ".py" +:+ rest)
    = a +:+ ".json" +:+ Replace.go ".py" ".json" 0 rest.
Proof.
  induction a as [|x a IH].
  - intros _. exact (go_py_match rest).
  - intros [Hp Hc]%contains_cons_false.
    rewrite (append_cons x a (".py" +:+ rest)).
    rewrite (append_cons x a (".json" +:+ _)).
    rewrite go_py_no_match.
    + by rewrite (IH Hc).
    + rewrite <- (append_cons x a (".py" +:+ rest)).
      by rewrite prefix_py_straddle.
Qed.

(** X16: the metadata path is the script path with every [.py] turned into
    [.json], not only the extension: a text without [.py] is kept as it is,
    and after a text without [.py] each occurrence is replaced and the rest
    treated likewise.  So [dir/weighting_functions.py] gives
    [dir/weighting_functions.json] when [dir/weighting_functions] has no
    [.py] in it, and a directory name with [.py] in it is rewritten too. *)
Theorem metadata_path_replaces_every_py (a : string) :
  Str.contains ".py" a = false →
  metadata_title_and_path a = a ∧
  (∀ rest,
     metadata_title_and_path (a +:+ ".py" +:+ rest)
       = a +:+ ".json" +:+ metadata_title_and_path rest) ∧
  metadata_title_and_path (a +:+ ".py") = a +:+ ".json".
Proof.
  unfold metadata_title_and_path, Replace.replace.
  intros Hno. split_and!.
  - by apply go_py_keep.
  - intros rest. by apply go_py_law.
  - exact (go_py_law a EmptyString Hno).
Qed.

(** ** What stripping keeps *)

Lemma rstrip_decompose (c : ascii) (s : string) :
  ∃ n, s = Str.rstrip c s +:+ Str.replicate n c.
Proof.
  induction s as [|a s [n IH]].
  - by exists O.
  - simpl. destruct (Str.rstrip c s) as [|b r].
    + destruct (decide (a = c)) as [->|Hne].
      * exists (S n). simpl in *. by rewrite IH at 1.
      * exists n. rewrite append_cons. simpl in IH. by rewrite IH at 1.
    + exists n. rewrite append_cons. by rewrite IH at 1.
Qed.

(** X15: storing the configuration loses nothing but trailing slashes: each
    configured location is the stored one followed by slashes only, and
    stripping a stored location again changes nothing. *)
Theorem stripping_removes_trailing_slashes_only {sys}
    (run_docker_container : invoker sys) {O}
    (data : gmap string value) (outputs : option O)
    (p : processor) (w : world sys) (exe : value) (d u : string) :
  configured w exe d u →
  let res := run (execute run_docker_container data outputs) p w in
  ∃ dir url n m,
    download_dir res.1.2 = Some dir ∧
    download_url res.1.2 = Some url ∧
    d = dir +:+ Str.replicate n slash ∧
    u = url +:+ Str.replicate m slash ∧
    Str.rstrip slash dir = dir ∧
    Str.rstrip slash url = url.
Proof.
  intros Hc. simpl.
  destruct (execute_configured_self run_docker_container data outputs p w exe d u Hc)
    as [-> _].
  destruct (rstrip_decompose slash d) as [n Hn].
  destruct (rstrip_decompose slash u) as [m Hm].
  exists (Str.rstrip slash d), (Str.rstrip slash u), n, m. simpl.
  split_and!; try done;
    apply StrFacts.rstrip_fixed, StrFacts.rstrip_no_trailing.
Qed.

(** X17: a download directory that is empty or made of slashes only is
    stored as the empty string, so that the output directory is
    [/out/<process_id>/job_<job_id>], at the root of the file system. *)
Theorem all_slash_download_dir_means_root {sys}
    (run_docker_container : invoker sys) {O}
    (data : gmap string value) (outputs : option O)
    (p : processor) (w : world sys) (exe : value) (u : string) (n : nat) :
  configured w exe (Str.replicate n slash) u →
  let res := run (execute run_docker_container data outputs) p w in
  download_dir res.1.2 = Some EmptyString ∧
  made_dirs (trace res.2) =
    made_dirs (trace w) ++ ["/out/" +:+ process_id p +:+ "/job_" +:+ my_job_id p].
Proof.
  intros Hc. simpl.
  destruct (execute_configured_self run_docker_container data outputs p w _ _ u Hc)
    as [-> ->].
  simpl. by rewrite StrFacts.rstrip_replicate.
Qed.

(** ** The further properties on examples *)


Lemma missing_configuration_file_is_reported_witness :
  config_file_path Cases.unconfigured = "/etc/aquainfra.json" ∧
  run (execute Scenario.succeeds Scenario.request (None : option unit))
    Scenario.job42 Cases.unconfigured =
    (Raised (FileNotFoundError "/etc/aquainfra.json"),
     Scenario.job42,
     World (environ Cases.unconfigured) (fs Cases.unconfigured)
       (trace Cases.unconfigured
          ++ [EvOpen (config_file_path Cases.unconfigured)])).
Proof.
  apply (missing_configuration_file_is_reported Scenario.succeeds
           Scenario.request (None : option unit) Scenario.job42
           Cases.unconfigured (FileNotFoundError "/etc/aquainfra.json")).
  left. evaluated.
Defined.

Lemma configuration_is_stored_attribute_by_attribute_witness :
  let res := run (execute Scenario.succeeds Scenario.request (None : option unit))
               Scenario.job42 (Scenario.world_of Cases.config_no_url) in
  res.1.1 = Raised (KeyError "download_url") ∧
  docker_executable res.1.2 = Some (VStr "/usr/bin/docker") ∧
  download_dir res.1.2 = Some "/data" ∧
  download_url res.1.2 = None ∧
  res.2 = World ∅ (fs (Scenario.world_of Cases.config_no_url))
            [EvOpen "./config.json"].
Proof.
  apply (configuration_is_stored_attribute_by_attribute Scenario.succeeds
           Scenario.request (None : option unit) Scenario.job42
           (Scenario.world_of Cases.config_no_url)
           Cases.config_no_url (VStr "/usr/bin/docker") "/data/").
  - eexists. split; evaluated.
  - evaluated.
  - evaluated.
  - intros u H. vm_compute in H. discriminate H.
Defined.

Lemma occupied_output_path_raises_witness :
  let od := "/data/out/weighting-functions/job_42" in
  let res := run (execute Scenario.succeeds Scenario.request (None : option unit))
               Scenario.job42 Cases.occupied in
  res.1.1 = Raised (FileExistsError od) ∧
  res.1.2 = with_config (VStr "/usr/bin/docker") "/data" "https://x/files"
              Scenario.job42 ∧
  fs res.2 = fs Cases.occupied ∧
  trace res.2 = [EvOpen "./config.json"; EvMakedirs od] ∧
  docker_calls (trace res.2) = [].
Proof.
  apply (occupied_output_path_raises Scenario.succeeds Scenario.request
           (None : option unit) Scenario.job42 Cases.occupied
           (VStr "/usr/bin/docker") "/data" "https://x/files"
           (FileExistsError "/data/out/weighting-functions/job_42")
           (fs Cases.occupied)).
  - scenario_configured Scenario.config.
  - evaluated.
Defined.

Lemma repeated_validation_failure_is_idempotent_witness :
  let data := delete "inputFile1_tif" Scenario.request in
  let w := Scenario.world_of Scenario.config in
  let first := run (execute Scenario.succeeds data (None : option unit))
                 Scenario.job42 w in
  let second := run (execute Scenario.succeeds data (None : option unit))
                  first.1.2 first.2 in
  first.1.1 = Raised (validation_error "inputFile1_tif") ∧
  fs first.2 = (Mem.makedirs "/data/out/weighting-functions/job_42" (fs w)).2 ∧
  second.1.1 = first.1.1 ∧
  second.1.2 = first.1.2 ∧
  fs second.2 = fs first.2 ∧
  docker_calls (trace second.2) = [].
Proof.
  apply (repeated_validation_failure_is_idempotent Scenario.succeeds
           (delete "inputFile1_tif" Scenario.request) (None : option unit)
           Scenario.job42 (Scenario.world_of Scenario.config)
           (VStr "/usr/bin/docker") "/data" "https://x/files" "inputFile1_tif"
           (Mem.makedirs "/data/out/weighting-functions/job_42"
              (fs (Scenario.world_of Scenario.config))).2).
  - scenario_configured Scenario.config.
  - evaluated.
  - scenario_configured Scenario.config.
  - evaluated.
  - evaluated.
Defined.

Lemma other_request_keys_are_ignored_witness :
  execute Scenario.succeeds Cases.request_extra (None : option unit)
    = execute Scenario.succeeds Scenario.request (None : option unit) ∧
  execute Scenario.succeeds (delete "comment" Scenario.request) (None : option unit)
    = execute Scenario.succeeds Scenario.request (None : option unit).
Proof.
  apply (other_request_keys_are_ignored Scenario.succeeds Scenario.request
           (None : option unit) "comment" (VStr "please hurry")).
  intros Hk. unfold required_keys in Hk.
  repeat (apply elem_of_cons in Hk as [Hk|Hk]; [discriminate Hk|]).
  by apply elem_of_nil in Hk.
Defined.

Lemma stdout_and_stderr_are_ignored_witness :
  run (execute (Scenario.fails_with "disk full") Scenario.request (None : option unit))
    Scenario.job42 (Scenario.world_of Scenario.config)
  = run (execute (Cases.chatty "disk full") Scenario.request (None : option unit))
      Scenario.job42 (Scenario.world_of Scenario.config).
Proof.
  apply (stdout_and_stderr_are_ignored (Scenario.fails_with "disk full")
           (Cases.chatty "disk full")).
  intros inv fs0. simpl. repeat split; reflexivity.
Defined.

Lemma stored_configuration_is_not_reused_witness :
  run (execute Scenario.succeeds Scenario.request (None : option unit))
    Cases.stale (Scenario.world_of Scenario.config)
  = run (execute Scenario.succeeds Scenario.request (None : option unit))
      Scenario.job42 (Scenario.world_of Scenario.config).
Proof.
  destruct (stored_configuration_is_not_reused Scenario.succeeds
              Scenario.request (None : option unit) Scenario.job42
              (Scenario.world_of Scenario.config)
              (Some (VStr "podman")) (Some "/old") (Some "http://old"))
    as (Hr & Hw & Hp).
  assert (∃ exe d u, configured (Scenario.world_of Scenario.config) exe d u)
    as Hc.
  { exists (VStr "/usr/bin/docker"), "/data", "https://x/files".
    scenario_configured Scenario.config. }
  specialize (Hp Hc).
  change (Processor (name Scenario.job42) (metadata Scenario.job42)
            (supports_outputs Scenario.job42) (process_id Scenario.job42)
            (my_job_id Scenario.job42) (image_name Scenario.job42)
            (script_name Scenario.job42) (Some (VStr "podman")) (Some "/old")
            (Some "http://old")) with Cases.stale in *.
  destruct (run (execute Scenario.succeeds Scenario.request (None : option unit))
              Cases.stale _) as [[r0 p0] w0].
  destruct (run (execute Scenario.succeeds Scenario.request (None : option unit))
              Scenario.job42 _) as [[r1 p1] w1].
  simpl in *. by subst.
Defined.

Lemma invoker_runs_once_in_the_created_directory_witness :
  let w := Scenario.world_of Scenario.config in
  let od := "/data/out/weighting-functions/job_42" in
  let res := run (execute (Scenario.fails_with "disk full") Scenario.request
                    (None : option unit)) Scenario.job42 w in
  ∃ inv,
    trace res.2 = [EvOpen "./config.json"; EvMakedirs od; EvRunDocker inv] ∧
    inv_executable inv = VStr "/usr/bin/docker" ∧
    inv_image_name inv = "aquainfra-elbe-usecase-image:20251201" ∧
    inv_script_name inv = "weighting_functions.R" ∧
    inv_output_dir inv = od ∧
    fs res.2 = (Scenario.fails_with "disk full" inv (Mem.makedirs od (fs w)).2).2 ∧
    res.1.2 = with_config (VStr "/usr/bin/docker") "/data" "https://x/files"
                Scenario.job42.
Proof.
  apply (invoker_runs_once_in_the_created_directory
           (Scenario.fails_with "disk full") Scenario.request
           (None : option unit) Scenario.job42
           (Scenario.world_of Scenario.config)
           (VStr "/usr/bin/docker") "/data" "https://x/files"
           (Mem.makedirs "/data/out/weighting-functions/job_42"
              (fs (Scenario.world_of Scenario.config))).2
           (VStr "a.tif") (VStr "b.gpkg") (VStr "c.dbf")).
  - evaluated.
  - discriminate.
  - evaluated.
  - discriminate.
  - evaluated.
  - discriminate.
  - scenario_configured Scenario.config.
  - evaluated.
Defined.

Lemma job_identities_separate_outputs_witness :
  join "/data/out/wf/job_1" (downloadfilename1 "1")
    ≠ join "/data/out/wf/job_1" (downloadfilename2 "1") ∧
  output_dir "/data" "a" "b/job_c" = output_dir "/data" "a/job_b" "c".
Proof.
  destruct job_identities_separate_outputs as (_ & _ & _ & Hext & Hcross).
  split.
  - apply Hext.
  - exact (Hcross "/data" "a" "b" "c").
Defined.

Lemma execute_runs_without_a_job_identity_witness :
  let res := run (execute Scenario.succeeds Scenario.request (None : option unit))
               Scenario.fresh (Scenario.world_of Scenario.config) in
  made_dirs (trace res.2) = ["/data/out/weighting-functions/job_nothing-yet"] ∧
  my_job_id res.1.2 = "nothing-yet" ∧
  download_dir res.1.2 = Some "/data".
Proof.
  apply (execute_runs_without_a_job_identity Scenario.succeeds Scenario.request
           (None : option unit) "weighting-functions" Scenario.md
           (Scenario.world_of Scenario.config)
           (VStr "/usr/bin/docker") "/data" "https://x/files").
  scenario_configured Scenario.config.
Defined.

Lemma reachable_processors_keep_the_class_invariant_witness :
  class_invariant
    (run (execute Scenario.succeeds Scenario.request (None : option unit))
       (set_job_id (init "weighting-functions" Scenario.md) "42")
       (Scenario.world_of Scenario.config_slashes)).1.2.
Proof.
  apply reachable_processors_keep_the_class_invariant.
  apply reachable_execute, reachable_set_job_id, reachable_init.
Defined.

Lemma metadata_path_replaces_every_py_witness :
  metadata_title_and_path "/srv/ogc/weighting_functions"
    = "/srv/ogc/weighting_functions" ∧
  (∀ rest,
     metadata_title_and_path ("/srv/ogc/weighting_functions" +:+ ".py" +:+ rest)
       = "/srv/ogc/weighting_functions" +:+ ".json" +:+ metadata_title_and_path rest) ∧
  metadata_title_and_path "/srv/ogc/weighting_functions.py"
    = "/srv/ogc/weighting_functions.json".
Proof.
  apply (metadata_path_replaces_every_py "/srv/ogc/weighting_functions").
  vm_compute. reflexivity.
Defined.

Lemma stripping_removes_trailing_slashes_only_witness :
  let res := run (execute Scenario.succeeds Scenario.request (None : option unit))
               Scenario.job42 (Scenario.world_of Scenario.config_slashes) in
  ∃ dir url n m,
    download_dir res.1.2 = Some dir ∧
    download_url res.1.2 = Some url ∧
    "/data//" = dir +:+ Str.replicate n slash ∧
    "https://x/files/" = url +:+ Str.replicate m slash ∧
    Str.rstrip slash dir = dir ∧
    Str.rstrip slash url = url.
Proof.
  apply (stripping_removes_trailing_slashes_only Scenario.succeeds
           Scenario.request (None : option unit) Scenario.job42
           (Scenario.world_of Scenario.config_slashes)
           (VStr "/usr/bin/docker") "/data//" "https://x/files/").
  scenario_configured Scenario.config_slashes.
Defined.

Lemma all_slash_download_dir_means_root_witness :
  let res := run (execute Scenario.succeeds Scenario.request (None : option unit))
               Scenario.job42 (Scenario.world_of Cases.config_root) in
  download_dir res.1.2 = Some EmptyString ∧
  made_dirs (trace res.2) = ["/out/weighting-functions/job_42"].
Proof.
  apply (all_slash_download_dir_means_root Scenario.succeeds
           Scenario.request (None : option unit) Scenario.job42
           (Scenario.world_of Cases.config_root)
           (VStr "/usr/bin/docker") "https://x/files" 1%nat).
  scenario_configured Cases.config_root.
Defined.
